(** * system_info / hostname_check: a shallow embedding of the two Ansible modules

    The two Python modules of the repository are read-only probes: they run
    external commands through [module.run_command], read a handful of
    configuration files, and hand a dictionary of facts to [exit_json] (or a
    message to [fail_json]).  The embedding below keeps that shape:

    - the host (command oracle, file system, host name) is an explicit record;
    - every collector is a computation in a small monad [Py] that threads the
      log of [run_command] calls and may raise a Python exception;
    - Python dictionaries with a fixed key set are records, the [sysctl_values]
      dictionary is a [gmap], [set(...)] is a [gset];
    - [str] methods ([strip], [split], [startswith], [in]) are functions on
      [string], with characters read as code points below 256. *)

From Stdlib Require Import ZArith Ascii.
From Stdlib Require String.
From stdpp Require Import gmap strings list.

Local Open Scope Z_scope.

(** ** Python [str] methods *)

Module Str.

(** [c.isspace()] for the code points below 256. *)
Definition isspace (c : ascii) : bool :=
  match c with
  | "009" | "010" | "011" | "012" | "013"
  | "028" | "029" | "030" | "031" | " " | "133" | "160" => true
  | _ => false
  end%char.

Definition eqb (s t : string) : bool := String.eqb s t.

(** [bool(s)]: a string is truthy when it is not empty. *)
Definition truthy (s : string) : bool :=
  match s with "" => false | String _ _ => true end.

(** [s.startswith(p)] *)
Definition startswith (s p : string) : bool := String.prefix p s.

(** [sub in s] *)
Fixpoint contains (sub s : string) : bool :=
  match s with
  | "" => String.prefix sub ""
  | String _ s' => String.prefix sub s || contains sub s'
  end.

Fixpoint lstrip (s : string) : string :=
  match s with
  | "" => ""
  | String c s' => if isspace c then lstrip s' else s
  end.

Fixpoint rstrip (s : string) : string :=
  match s with
  | "" => ""
  | String c s' =>
      match rstrip s' with
      | "" => if isspace c then "" else String c ""
      | r => String c r
      end
  end.

(** [s.strip()] *)
Definition strip (s : string) : string := rstrip (lstrip s).

(** [s.split()]: maximal runs of non-whitespace characters. *)
Fixpoint split (s : string) : list string :=
  match s with
  | "" => []
  | String c s' =>
      if isspace c then split s'
      else match s' with
           | "" => [String c ""]
           | String c' _ =>
               if isspace c' then String c "" :: split s'
               else match split s' with
                    | [] => [String c ""]
                    | w :: ws => String c w :: ws
                    end
           end
  end.

(** [s.split(sep)] for a one-character separator: never empty. *)
Fixpoint split_on (sep : ascii) (s : string) : list string :=
  match s with
  | "" => [""]
  | String c s' =>
      if Ascii.eqb c sep then "" :: split_on sep s'
      else match split_on sep s' with
           | [] => [String c ""]
           | w :: ws => String c w :: ws
           end
  end.

(** Iterating over a text file: the lines, each keeping its newline. *)
Fixpoint readlines (s : string) : list string :=
  match s with
  | "" => []
  | String c s' =>
      if Ascii.eqb c "010" then String c "" :: readlines s'
      else match readlines s' with
           | [] => [String c ""]
           | l :: ls => String c l :: ls
           end
  end.

(** [x in l] for a list of strings. *)
Definition mem (x : string) (l : list string) : bool :=
  existsb (String.eqb x) l.

(** [l[-1]] on the result of [split_on], which is never empty. *)
Definition last_item (l : list string) : string := List.last l "".

End Str.

(** ** Exceptions, outcomes and the [Py] monad *)

(** The exception classes the two modules can meet.  All of them derive from
    [Exception]; every one except [IndexError] and [RuntimeError] is an
    [OSError], which Python 3 also names [IOError]. *)
Inductive exn_class :=
| FileNotFoundError
| PermissionError
| IsADirectoryError
| NotADirectoryError
| OSError
| IndexError
| RuntimeError.

Record exn := Exn { exn_cls : exn_class; exn_msg : string }.

(** [isinstance(e, (IOError, PermissionError))], also [isinstance(e, IOError)] *)
Definition is_IOError (e : exn) : bool :=
  match exn_cls e with
  | IndexError | RuntimeError => false
  | _ => true
  end.

(** [isinstance(e, Exception)] *)
Definition is_Exception (e : exn) : bool := true.

(** [str(e)] *)
Definition str_of_exn (e : exn) : string := exn_msg e.

Inductive outcome (A : Type) :=
| Ok (a : A)
| Raise (e : exn).
Arguments Ok {A} a.
Arguments Raise {A} e.

(** One call of [module.run_command]: the command line and the keyword
    arguments of the call site. *)
Record call := Call { call_args : string; call_kwargs : list (string * string) }.

(** A computation returns or raises, and extends the log of commands run. *)
Definition Py (A : Type) : Type := list call -> outcome A * list call.

Definition ret {A} (a : A) : Py A := fun tr => (Ok a, tr).

Definition raise {A} (e : exn) : Py A := fun tr => (Raise e, tr).

Definition bind {A B} (c : Py A) (k : A -> Py B) : Py B :=
  fun tr =>
    match c tr with
    | (Ok a, tr') => k a tr'
    | (Raise e, tr') => (Raise e, tr')
    end.

Notation "x <- c ;; k" := (bind c (fun x => k))
  (at level 100, c at next level, right associativity).

(** [try: c  except <classes> as e: handler e] *)
Definition try_except {A} (c : Py A) (classes : exn -> bool)
    (handler : exn -> Py A) : Py A :=
  fun tr =>
    match c tr with
    | (Ok a, tr') => (Ok a, tr')
    | (Raise e, tr') => if classes e then handler e tr' else (Raise e, tr')
    end.

(** [for x in l: s = body s x] *)
Fixpoint for_each {A S} (l : list A) (body : S -> A -> Py S) (s : S) : Py S :=
  match l with
  | [] => ret s
  | x :: l' => s' <- body s x ;; for_each l' body s'
  end.

(** [l[i]], which raises [IndexError] out of range. *)
Definition index (l : list string) (i : nat) : Py string :=
  match nth_error l i with
  | Some x => ret x
  | None => raise (Exn IndexError "list index out of range")
  end.

(** ** The host *)

(** What the probe can observe of the machine.  [proc] is the answer of
    [module.run_command] to a command line (exit code, stdout, stderr): the
    helper is external to the repository and is taken as a total oracle.
    [fs] gives the node at a path; [hostname_lookup] is what
    [socket.gethostname()] does. *)

Inductive fnode :=
| Missing
| RegularFile (content : option string)       (* [None]: not readable *)
| Directory (entries : option (list string)). (* [None]: not listable *)

Record host := Host {
  proc : string -> Z * string * string;   (* rc, stdout, stderr of a command *)
  fs : string -> fnode;
  hostname_lookup : outcome string
}.

(** [module.run_command(args, ...)]: the answer of the host to the command
    line, with the call logged as the call site made it.  A call site that
    passes the command line alone, as [module.run_command('which chronyd')]
    does, has no keyword arguments. *)
Definition run_command (h : host) (args : string)
    (kwargs : list (string * string)) : Py (Z * string * string) :=
  fun tr => (Ok (proc h args), tr ++ [Call args kwargs]).

(** [os.path.exists(p)], [os.path.isfile(p)], [os.path.join(d, f)] *)
Definition os_path_exists (h : host) (p : string) : bool :=
  match fs h p with Missing => false | _ => true end.

Definition os_path_isfile (h : host) (p : string) : bool :=
  match fs h p with RegularFile _ => true | _ => false end.

Definition os_path_join (d f : string) : string := d +:+ "/" +:+ f.

(** [os.listdir(p)] *)
Definition os_listdir (h : host) (p : string) : Py (list string) :=
  match fs h p with
  | Directory (Some l) => ret l
  | Directory None => raise (Exn PermissionError ("[Errno 13] Permission denied: " +:+ p))
  | RegularFile _ => raise (Exn NotADirectoryError ("[Errno 20] Not a directory: " +:+ p))
  | Missing => raise (Exn FileNotFoundError ("[Errno 2] No such file or directory: " +:+ p))
  end.

(** [with open(p, 'r') as f], giving the whole text of the file as text
    mode delivers it (decoded, line ends translated to the newline
    character).  Every failure to open is an [OSError]. *)
Definition open_read (h : host) (p : string) : Py string :=
  match fs h p with
  | RegularFile (Some s) => ret s
  | RegularFile None => raise (Exn PermissionError ("[Errno 13] Permission denied: " +:+ p))
  | Directory _ => raise (Exn IsADirectoryError ("[Errno 21] Is a directory: " +:+ p))
  | Missing => raise (Exn FileNotFoundError ("[Errno 2] No such file or directory: " +:+ p))
  end.

(** ** system_info.py *)

Module system_info.

(** *** get_sudo_users *)

(** The body of [for line in f] over a sudoers file. *)
Definition sudoers_line (sudo_users : list string) (line : string)
    : Py (list string) :=
  let line := Str.strip line in
  if Str.startswith line "#" || negb (Str.truthy line) then ret sudo_users
  else if Str.contains "ALL=(ALL" line || Str.contains "ALL = (ALL" line then
    user <- index (Str.split line) 0 ;;
    if negb (Str.mem user ["root"; "%sudo"; "%wheel"; "%admin"]) then
      if negb (Str.startswith user "%") then ret (sudo_users ++ [user])
      else ret sudo_users
    else ret sudo_users
  else ret sudo_users.

(** The body of [for filepath in sudoers_files]: the [try] around [open].
    Only [open] can raise an [OSError] here, before any line is read, so
    the handler resumes with the list as it was. *)
Definition sudoers_file (h : host) (sudo_users : list string)
    (filepath : string) : Py (list string) :=
  try_except
    (content <- open_read h filepath ;;
     for_each (Str.readlines content) sudoers_line sudo_users)
    is_IOError
    (fun _ => ret sudo_users).

(** The body of [for line in f] over /etc/group. *)
Definition group_line (sudo_users : list string) (line : string)
    : list string :=
  if Str.startswith line "sudo:" || Str.startswith line "wheel:" then
    match Str.split_on ":" (Str.strip line) with
    | _ :: _ :: _ :: members :: _ =>
        if Str.truthy members then sudo_users ++ Str.split_on "," members
        else sudo_users
    | _ => sudo_users
    end
  else sudo_users.

Definition get_sudo_users (h : host) : Py (gset string) :=
  let sudo_users := [] in
  let sudoers_files := ["/etc/sudoers"] in
  sudoers_files <-
    (if os_path_exists h "/etc/sudoers.d" then
       names <- os_listdir h "/etc/sudoers.d" ;;
       let sudoers_d_files :=
         map (os_path_join "/etc/sudoers.d")
             (List.filter
                (fun f => os_path_isfile h (os_path_join "/etc/sudoers.d" f))
                names) in
       ret (sudoers_files ++ sudoers_d_files)
     else ret sudoers_files) ;;
  sudo_users <- for_each sudoers_files (sudoers_file h) sudo_users ;;
  sudo_users <-
    try_except
      (content <- open_read h "/etc/group" ;;
       ret (fold_left group_line (Str.readlines content) sudo_users))
      is_IOError
      (fun _ => ret sudo_users) ;;
  ret (list_to_set sudo_users).

(** *** get_ntp_settings *)

Module Ntp.
Record info := Info {
  service : string;
  enabled : bool;
  servers : list string;
  status : string
}.
Definition set_service (v : string) (n : info) : info :=
  Info v (enabled n) (servers n) (status n).
Definition set_enabled (v : bool) (n : info) : info :=
  Info (service n) v (servers n) (status n).
Definition set_status (v : string) (n : info) : info :=
  Info (service n) (enabled n) (servers n) v.
Definition append_server (v : string) (n : info) : info :=
  Info (service n) (enabled n) (servers n ++ [v]) (status n).
End Ntp.

(** The body of [for line in f] over /etc/chrony.conf. *)
Definition chrony_conf_line (n : Ntp.info) (line : string) : Ntp.info :=
  if Str.startswith (Str.strip line) "server"
     || Str.startswith (Str.strip line) "pool" then
    match Str.split line with
    | _ :: server :: _ => Ntp.append_server server n
    | _ => n
    end
  else n.

(** The body of [for line in f] over /etc/ntp.conf. *)
Definition ntp_conf_line (n : Ntp.info) (line : string) : Ntp.info :=
  if Str.startswith (Str.strip line) "server" then
    match Str.split line with
    | _ :: server :: _ => Ntp.append_server server n
    | _ => n
    end
  else n.

(** The body of [for line in out.split('\n')] over the timedatectl output. *)
Definition timesync_line (n : Ntp.info) (line : string) : Py Ntp.info :=
  if Str.contains "ServerName=" line then
    field <- index (Str.split_on "=" line) 1 ;;
    let server := Str.strip field in
    if Str.truthy server then ret (Ntp.append_server server n) else ret n
  else ret n.

(** [if os.path.exists(conf): try: for line in open(conf) ... except IOError] *)
Definition read_servers (h : host) (conf : string)
    (line_body : Ntp.info -> string -> Ntp.info) (n : Ntp.info) : Py Ntp.info :=
  if os_path_exists h conf then
    try_except
      (content <- open_read h conf ;;
       ret (fold_left line_body (Str.readlines content) n))
      is_IOError
      (fun _ => ret n)
  else ret n.

(** The two assignments after [systemctl is-active <service>]. *)
Definition record_active (out : string) (n : Ntp.info) : Ntp.info :=
  Ntp.set_status (Str.strip out)
    (Ntp.set_enabled (Str.eqb (Str.strip out) "active") n).

Definition get_ntp_settings (h : host) : Py Ntp.info :=
  let ntp_info := Ntp.Info "unknown" false [] "unknown" in
  r <- run_command h "which chronyd" [] ;;
  ntp_info <-
    (let '(rc, out, err) := r in
     if rc =? 0 then
       let ntp_info := Ntp.set_service "chronyd" ntp_info in
       r <- run_command h "systemctl is-active chronyd" [] ;;
       let '(rc, out, err) := r in
       let ntp_info := record_active out ntp_info in
       read_servers h "/etc/chrony.conf" chrony_conf_line ntp_info
     else ret ntp_info) ;;
  r <- run_command h "which ntpd" [] ;;
  ntp_info <-
    (let '(rc, out, err) := r in
     if (rc =? 0) && Str.eqb (Ntp.service ntp_info) "unknown" then
       let ntp_info := Ntp.set_service "ntpd" ntp_info in
       r <- run_command h "systemctl is-active ntpd" [] ;;
       let '(rc, out, err) := r in
       let ntp_info := record_active out ntp_info in
       read_servers h "/etc/ntp.conf" ntp_conf_line ntp_info
     else ret ntp_info) ;;
  r <- run_command h "which systemd-timesyncd" [] ;;
  ntp_info <-
    (let '(rc, out, err) := r in
     if (rc =? 0) && Str.eqb (Ntp.service ntp_info) "unknown" then
       let ntp_info := Ntp.set_service "systemd-timesyncd" ntp_info in
       r <- run_command h "systemctl is-active systemd-timesyncd" [] ;;
       let '(rc, out, err) := r in
       let ntp_info := record_active out ntp_info in
       r <- run_command h "timedatectl show-timesync --all" [] ;;
       let '(rc, out, err) := r in
       if rc =? 0 then
         for_each (Str.split_on "010" out) timesync_line ntp_info
       else ret ntp_info
     else ret ntp_info) ;;
  ret ntp_info.

(** *** get_dns_settings *)

Module Dns.
Record info := Info {
  nameservers : list string;
  search_domains : list string;
  resolv_conf : string
}.
End Dns.

(** The body of [for line in f] over /etc/resolv.conf. *)
Definition resolv_conf_line (d : Dns.info) (line : string) : Dns.info :=
  let line := Str.strip line in
  if Str.startswith line "nameserver" then
    match Str.split line with
    | _ :: addr :: _ =>
        Dns.Info (Dns.nameservers d ++ [addr]) (Dns.search_domains d)
                 (Dns.resolv_conf d)
    | _ => d
    end
  else if Str.startswith line "search" then
    match Str.split line with
    | _ :: dom :: doms =>
        Dns.Info (Dns.nameservers d) (Dns.search_domains d ++ dom :: doms)
                 (Dns.resolv_conf d)
    | _ => d
    end
  else d.

Definition get_dns_settings (h : host) : Py Dns.info :=
  let dns_info := Dns.Info [] [] "/etc/resolv.conf" in
  if os_path_exists h "/etc/resolv.conf" then
    try_except
      (content <- open_read h "/etc/resolv.conf" ;;
       ret (fold_left resolv_conf_line (Str.readlines content) dns_info))
      is_IOError
      (fun _ => ret dns_info)
  else ret dns_info.

(** *** get_ipv6_status *)

Module Ipv6.
(** The ['status'] key is only added by the last pass: [None] is "no key". *)
Record info := Info {
  disabled : bool;
  disable_method : list string;
  sysctl_values : gmap string string;
  status : option string
}.
Definition set_disabled (v : bool) (i : info) : info :=
  Info v (disable_method i) (sysctl_values i) (status i).
Definition append_method (v : string) (i : info) : info :=
  Info (disabled i) (disable_method i ++ [v]) (sysctl_values i) (status i).
Definition set_sysctl_value (k v : string) (i : info) : info :=
  Info (disabled i) (disable_method i) (<[k := v]> (sysctl_values i)) (status i).
Definition set_status (v : string) (i : info) : info :=
  Info (disabled i) (disable_method i) (sysctl_values i) (Some v).
End Ipv6.

Definition sysctl_params : list string :=
  [ "net.ipv6.conf.all.disable_ipv6";
    "net.ipv6.conf.default.disable_ipv6";
    "net.ipv6.conf.lo.disable_ipv6" ].

Definition grub_files : list string :=
  [ "/etc/default/grub"; "/boot/grub/grub.cfg"; "/boot/grub2/grub.cfg" ].

(** [out.strip().split('=')[-1].strip()] *)
Definition sysctl_value (out : string) : string :=
  Str.strip (Str.last_item (Str.split_on "=" (Str.strip out))).

(** The body of [for param in sysctl_params]. *)
Definition sysctl_step (h : host) (ipv6_info : Ipv6.info) (param : string)
    : Py Ipv6.info :=
  r <- run_command h ("sysctl " +:+ param) [] ;;
  let '(rc, out, err) := r in
  if rc =? 0 then
    let value := sysctl_value out in
    let ipv6_info := Ipv6.set_sysctl_value param value ipv6_info in
    if Str.eqb value "1" then
      ret (Ipv6.append_method "sysctl" (Ipv6.set_disabled true ipv6_info))
    else ret ipv6_info
  else ret ipv6_info.

(** The body of [for grub_file in grub_files]. *)
Definition grub_step (h : host) (ipv6_info : Ipv6.info) (grub_file : string)
    : Py Ipv6.info :=
  if os_path_exists h grub_file then
    try_except
      (content <- open_read h grub_file ;;
       if Str.contains "ipv6.disable=1" content then
         let ipv6_info := Ipv6.set_disabled true ipv6_info in
         if negb (Str.mem "grub" (Ipv6.disable_method ipv6_info)) then
           ret (Ipv6.append_method "grub" ipv6_info)
         else ret ipv6_info
       else ret ipv6_info)
      is_IOError
      (fun _ => ret ipv6_info)
  else ret ipv6_info.

(** [for line in out.split('\n'): if ...: has_ipv6 = True; break] *)
Fixpoint has_ipv6 (lines : list string) : bool :=
  match lines with
  | [] => false
  | line :: rest =>
      if Str.contains "inet6" line && negb (Str.contains "::1" line) then true
      else has_ipv6 rest
  end.

(** The last pass: [ip -6 addr show] against what the first two found. *)
Definition live_pass (h : host) (ipv6_info : Ipv6.info) : Py Ipv6.info :=
  r <- run_command h "ip -6 addr show" [] ;;
  let '(rc, out, err) := r in
  if (rc =? 0) && Str.truthy (Str.strip out) then
    let has_ipv6 := has_ipv6 (Str.split_on "010" out) in
    if negb has_ipv6 && Ipv6.disabled ipv6_info then
      ret (Ipv6.set_status "disabled" ipv6_info)
    else if has_ipv6 then
      ret (Ipv6.set_disabled false (Ipv6.set_status "enabled" ipv6_info))
    else ret ipv6_info
  else ret ipv6_info.

Definition get_ipv6_status (h : host) : Py Ipv6.info :=
  let ipv6_info := Ipv6.Info false [] ∅ None in
  ipv6_info <- for_each sysctl_params (sysctl_step h) ipv6_info ;;
  ipv6_info <- for_each grub_files (grub_step h) ipv6_info ;;
  ipv6_info <- live_pass h ipv6_info ;;
  ret ipv6_info.

(** *** main *)

(** The [result] dictionary once all four keys are filled in. *)
Record result := Result {
  changed : bool;
  sudo_users : gset string;
  ntp_settings : Ntp.info;
  dns_settings : Dns.info;
  ipv6_status : Ipv6.info
}.

(** How the module ends: [module.exit_json] with the keys of [result], or
    [module.fail_json] with a message. *)
Inductive module_exit :=
| exit_json (r : result)
| fail_json (msg : string).

(** The [try] block of [main] over any four collectors. *)
Definition main_with (sudo : Py (gset string)) (ntp : Py Ntp.info)
    (dns : Py Dns.info) (ipv6 : Py Ipv6.info) : Py module_exit :=
  try_except
    (s <- sudo ;;
     n <- ntp ;;
     d <- dns ;;
     i <- ipv6 ;;
     ret (exit_json (Result false s n d i)))
    is_Exception
    (fun e => ret (fail_json (str_of_exn e))).

Definition main (h : host) : Py module_exit :=
  main_with (get_sudo_users h) (get_ntp_settings h) (get_dns_settings h)
            (get_ipv6_status h).

End system_info.

(** ** hostname_check.py *)

Module hostname_check.

Record result := Result {
  changed : bool;
  hostname : string;
  msg : string
}.

Inductive module_exit :=
| exit_json (r : result)
| fail_json (msg : string).

(** [socket.gethostname()] *)
Definition gethostname (h : host) : Py string :=
  fun tr => (hostname_lookup h, tr).

Definition main (h : host) : Py module_exit :=
  try_except
    (hostname <- gethostname h ;;
     ret (exit_json
            (Result false hostname ("Hostname (Python): " +:+ hostname))))
    is_Exception
    (fun e => ret (fail_json ("Failed to get hostname: " +:+ str_of_exn e))).

End hostname_check.

(** ** Concrete hosts *)

(** A command oracle from a table; a command not listed exits with 1 and
    prints nothing (what [which] does for a missing binary). *)
Fixpoint proc_of (t : list (string * (Z * string * string))) (cmd : string)
    : Z * string * string :=
  match t with
  | [] => (1, "", "")
  | (c, r) :: t' => if String.eqb c cmd then r else proc_of t' cmd
  end.

(** A file system from a table; a path not listed is missing. *)
Fixpoint fs_of (t : list (string * fnode)) (p : string) : fnode :=
  match t with
  | [] => Missing
  | (q, n) :: t' => if String.eqb q p then n else fs_of t' p
  end.

Definition nl : string := String "010" "".

(** A bare host: no command succeeds, no file exists. *)
Definition bare_host : host :=
  Host (proc_of []) (fs_of []) (Ok "localhost").

(** The characters of a string, for stating where a character may occur. *)
Definition chars (s : string) : list ascii := String.list_ascii_of_string s.

(** ** Vocabulary of the statements, with the hosts they are tried on *)

(** What one line of the resolver file adds to each list: the loop body run
    on empty lists. *)
Definition line_nameservers (line : string) : list string :=
  system_info.Dns.nameservers
    (system_info.resolv_conf_line (system_info.Dns.Info [] [] "") line).

Definition line_search_domains (line : string) : list string :=
  system_info.Dns.search_domains
    (system_info.resolv_conf_line (system_info.Dns.Info [] [] "") line).

(** The resolver file of the specification's example. *)
Definition resolv_example : string :=
  "nameserver 8.8.8.8" +:+ nl +:+ "search a.com b.com" +:+ nl.

Definition dns_host : host :=
  Host (proc_of [])
       (fs_of [("/etc/resolv.conf", RegularFile (Some resolv_example))])
       (Ok "localhost").

(** Whether a kernel parameter is evidence of disablement: its query
    succeeds and the value read from the output is "1". *)
Definition sysctl_evidence (h : host) (param : string) : bool :=
  let '(rc, out, err) := proc h ("sysctl " +:+ param) in
  (rc =? 0) && Str.eqb (system_info.sysctl_value out) "1".

(** Whether a bootloader file is evidence of disablement: it can be read
    and mentions the boot parameter. *)
Definition grub_evidence (h : host) (grub_file : string) : bool :=
  match fs h grub_file with
  | RegularFile (Some content) => Str.contains "ipv6.disable=1" content
  | _ => false
  end.

(** All three kernel parameters read 1, both bootloader files carry the boot
    parameter, and an interface holds a link-local address. *)
Definition ipv6_conflict_host : host :=
  Host
    (proc_of
       [ ("sysctl net.ipv6.conf.all.disable_ipv6",
          (0, "net.ipv6.conf.all.disable_ipv6 = 1" +:+ nl, ""));
         ("sysctl net.ipv6.conf.default.disable_ipv6",
          (0, "net.ipv6.conf.default.disable_ipv6 = 1" +:+ nl, ""));
         ("sysctl net.ipv6.conf.lo.disable_ipv6",
          (0, "net.ipv6.conf.lo.disable_ipv6 = 1" +:+ nl, ""));
         ("ip -6 addr show",
          (0, "2: eth0: <BROADCAST,MULTICAST,UP> mtu 1500" +:+ nl +:+
              "    inet6 fe80::5054:ff:fe12:3456/64 scope link" +:+ nl, "")) ])
    (fs_of
       [ ("/etc/default/grub",
          RegularFile (Some "GRUB_CMDLINE_LINUX=ipv6.disable=1"));
         ("/boot/grub/grub.cfg",
          RegularFile (Some "linux /vmlinuz root=/dev/sda1 ipv6.disable=1")) ])
    (Ok "localhost").

(** No disable evidence anywhere, and only the loopback address is up. *)
Definition ipv6_quiet_host : host :=
  Host
    (proc_of
       [ ("sysctl net.ipv6.conf.all.disable_ipv6",
          (0, "net.ipv6.conf.all.disable_ipv6 = 0" +:+ nl, ""));
         ("ip -6 addr show",
          (0, "1: lo: <LOOPBACK,UP> mtu 65536" +:+ nl +:+
              "    inet6 ::1/128 scope host" +:+ nl, "")) ])
    (fs_of [ ("/etc/default/grub", RegularFile (Some "GRUB_TIMEOUT=5")) ])
    (Ok "localhost").

(** The backends in probe order, and the reading of "binary present":
    [which <backend>] exits with 0. *)
Definition backends : list string := ["chronyd"; "ntpd"; "systemd-timesyncd"].

Definition detected (h : host) (backend : string) : bool :=
  let '(rc, out, err) := proc h ("which " +:+ backend) in rc =? 0.

Definition first_detected (h : host) : option string :=
  List.find (detected h) backends.

(** The commands that follow the detection of the winning backend. *)
Definition follow_ups (backend : string) : list string :=
  ("systemctl is-active " +:+ backend)
  :: (if String.eqb backend "systemd-timesyncd"
      then ["timedatectl show-timesync --all"] else []).

(** The commands of one run, in order: a presence check for each of the
    three backends, and the follow-ups of the winner right after its own. *)
Definition probe_script (winner : option string) : list string :=
  flat_map
    (fun b =>
       ("which " +:+ b)
       :: (match winner with
           | Some w => if String.eqb w b then follow_ups b else []
           | None => []
           end))
    backends.

Definition calls (cmds : list string) : list call :=
  map (fun c => Call c []) cmds.

(** chronyd and ntpd are both installed; chronyd is running. *)
Definition ntp_both_host : host :=
  Host
    (proc_of
       [ ("which chronyd", (0, "/usr/sbin/chronyd" +:+ nl, ""));
         ("which ntpd", (0, "/usr/sbin/ntpd" +:+ nl, ""));
         ("systemctl is-active chronyd", (0, "active" +:+ nl, ""));
         ("systemctl is-active ntpd", (3, "inactive" +:+ nl, "")) ])
    (fs_of
       [ ("/etc/chrony.conf",
          RegularFile (Some ("pool 2.pool.ntp.org iburst" +:+ nl)));
         ("/etc/ntp.conf",
          RegularFile (Some ("server 0.pool.ntp.org" +:+ nl))) ])
    (Ok "localhost").

(** A computation that runs no command leaves the log as it found it. *)
Definition silent {A} (c : Py A) : Prop := forall tr, snd (c tr) = tr.

(** The commands of the IPv6 collector, in order. *)
Definition ipv6_script : list string :=
  map (fun p => "sysctl " +:+ p) system_info.sysctl_params
  ++ ["ip -6 addr show"].

(** Which collector of a run raises, the earlier ones having returned. *)
Inductive collector_raises {S N D I}
    (sudo : Py S) (ntp : Py N) (dns : Py D) (ipv6 : Py I) (tr : list call)
    : exn -> list call -> Prop :=
| raises_sudo e t1 :
    sudo tr = (Raise e, t1) ->
    collector_raises sudo ntp dns ipv6 tr e t1
| raises_ntp s t1 e t2 :
    sudo tr = (Ok s, t1) -> ntp t1 = (Raise e, t2) ->
    collector_raises sudo ntp dns ipv6 tr e t2
| raises_dns s t1 n t2 e t3 :
    sudo tr = (Ok s, t1) -> ntp t1 = (Ok n, t2) -> dns t2 = (Raise e, t3) ->
    collector_raises sudo ntp dns ipv6 tr e t3
| raises_ipv6 s t1 n t2 d t3 e t4 :
    sudo tr = (Ok s, t1) -> ntp t1 = (Ok n, t2) -> dns t2 = (Ok d, t3) ->
    ipv6 t3 = (Raise e, t4) ->
    collector_raises sudo ntp dns ipv6 tr e t4.

(** The drop-in directory exists but may not be listed; the primary sudoers
    file and the group database are readable. *)
Definition sudoers_d_locked_host : host :=
  Host
    (proc_of [])
    (fs_of
       [ ("/etc/sudoers",
          RegularFile (Some ("root ALL=(ALL:ALL) ALL" +:+ nl +:+
                             "alice ALL=(ALL) NOPASSWD: ALL" +:+ nl)));
         ("/etc/sudoers.d", Directory None);
         ("/etc/group",
          RegularFile (Some ("sudo:x:27:bob,carol" +:+ nl))) ])
    (Ok "localhost").

(** The same host with a listable drop-in directory holding one file that
    may not be read. *)
Definition sudoers_file_locked_host : host :=
  Host
    (proc_of [])
    (fs_of
       [ ("/etc/sudoers",
          RegularFile (Some ("root ALL=(ALL:ALL) ALL" +:+ nl +:+
                             "alice ALL=(ALL) NOPASSWD: ALL" +:+ nl)));
         ("/etc/sudoers.d", Directory (Some ["ops"]));
         ("/etc/sudoers.d/ops", RegularFile None);
         ("/etc/group",
          RegularFile (Some ("sudo:x:27:bob,carol" +:+ nl))) ])
    (Ok "localhost").

(** A host whose name lookup fails. *)
Definition nameless_host : host :=
  Host (proc_of []) (fs_of [])
       (Raise (Exn OSError "[Errno -2] Name or service not known")).

(** Whether a call site bounds the command: a [timeout] keyword argument. *)
Definition has_timeout (c : call) : bool :=
  existsb (fun kv => String.eqb (fst kv) "timeout") (call_kwargs c).

(** What the probe reads for a kernel parameter: the value, when the query
    exits with 0. *)
Definition sysctl_reading (h : host) (param : string) : option string :=
  let '(rc, out, err) := proc h ("sysctl " +:+ param) in
  if rc =? 0 then Some (system_info.sysctl_value out) else None.

(** Disable evidence from either static source. *)
Definition static_evidence (h : host) : bool :=
  existsb (sysctl_evidence h) system_info.sysctl_params
  || existsb (grub_evidence h) system_info.grub_files.

(** The live query is usable: it exits with 0 and prints something. *)
Definition live_query_ok (h : host) : bool :=
  let '(rc, out, err) := proc h "ip -6 addr show" in
  (rc =? 0) && Str.truthy (Str.strip out).

(** The live query is usable and shows a qualifying inet6 line. *)
Definition live_address (h : host) : bool :=
  let '(rc, out, err) := proc h "ip -6 addr show" in
  (rc =? 0) && Str.truthy (Str.strip out)
  && system_info.has_ipv6 (Str.split_on "010" out).

(** The trimmed output of the service manager's status query. *)
Definition is_active_output (h : host) (backend : string) : string :=
  let '(rc, out, err) := proc h ("systemctl is-active " +:+ backend) in
  Str.strip out.

(** What one line adds to the servers list: each loop body run on an empty
    list. *)
Definition chrony_line_servers (line : string) : list string :=
  system_info.Ntp.servers
    (system_info.chrony_conf_line (system_info.Ntp.Info "" false [] "") line).

Definition ntp_line_servers (line : string) : list string :=
  system_info.Ntp.servers
    (system_info.ntp_conf_line (system_info.Ntp.Info "" false [] "") line).

Definition timesync_line_servers (line : string) : list string :=
  match fst (system_info.timesync_line
               (system_info.Ntp.Info "" false [] "") line []) with
  | Ok n => system_info.Ntp.servers n
  | Raise _ => []
  end.

(** The servers a configuration file yields; none when it cannot be read. *)
Definition conf_servers (h : host) (conf : string)
    (per_line : string -> list string) : list string :=
  match fs h conf with
  | RegularFile (Some content) => concat (map per_line (Str.readlines content))
  | _ => []
  end.

(** The servers the timedatectl query yields; none when it fails. *)
Definition timesync_servers (h : host) : list string :=
  let '(rc, out, err) := proc h "timedatectl show-timesync --all" in
  if rc =? 0 then concat (map timesync_line_servers (Str.split_on "010" out))
  else [].

(** The server source that belongs to a backend. *)
Definition backend_servers (h : host) (backend : string) : list string :=
  if String.eqb backend "chronyd" then
    conf_servers h "/etc/chrony.conf" chrony_line_servers
  else if String.eqb backend "ntpd" then
    conf_servers h "/etc/ntp.conf" ntp_line_servers
  else timesync_servers h.

(** Two kernel parameters read 1; the third query and the interface
    listing exit with an error. *)
Definition ipv6_static_only_host : host :=
  Host
    (proc_of
       [ ("sysctl net.ipv6.conf.all.disable_ipv6",
          (0, "net.ipv6.conf.all.disable_ipv6 = 1" +:+ nl, ""));
         ("sysctl net.ipv6.conf.default.disable_ipv6",
          (0, "net.ipv6.conf.default.disable_ipv6 = 1" +:+ nl, ""));
         ("sysctl net.ipv6.conf.lo.disable_ipv6",
          (255, "", "sysctl: cannot stat /proc/sys/net/ipv6/conf/lo" +:+ nl));
         ("ip -6 addr show",
          (1, "", "RTNETLINK answers: Operation not permitted" +:+ nl)) ])
    (fs_of [])
    (Ok "localhost").

(** chronyd is installed, but its configuration file is missing. *)
Definition chrony_unconfigured_host : host :=
  Host
    (proc_of
       [ ("which chronyd", (0, "/usr/sbin/chronyd" +:+ nl, ""));
         ("systemctl is-active chronyd", (3, "inactive" +:+ nl, "")) ])
    (fs_of [ ("/etc/ntp.conf",
              RegularFile (Some ("server 0.pool.ntp.org" +:+ nl))) ])
    (Ok "localhost").

(** Whether the server source of a backend cannot be used: its
    configuration file is not a readable file, or the timedatectl query
    does not exit with 0. *)
Definition source_unavailable (h : host) (backend : string) : bool :=
  let unreadable conf :=
    match fs h conf with RegularFile (Some _) => false | _ => true end in
  if String.eqb backend "chronyd" then unreadable "/etc/chrony.conf"
  else if String.eqb backend "ntpd" then unreadable "/etc/ntp.conf"
  else let '(rc, out, err) := proc h "timedatectl show-timesync --all" in
       negb (rc =? 0).

(** A resolver file holding only comments and blank lines. *)
Definition dns_comments_host : host :=
  Host (proc_of [])
       (fs_of [("/etc/resolv.conf",
                RegularFile (Some ("# Generated by NetworkManager" +:+ nl +:+
                                   nl +:+ "  # nameserver 10.0.0.1" +:+ nl)))])
       (Ok "localhost").

(** The users one sudoers line yields: the loop body run on an empty list. *)
Definition sudoers_line_users (line : string) : list string :=
  match fst (system_info.sudoers_line [] line []) with
  | Ok users => users
  | Raise _ => []
  end.

(** The users a sudoers file yields; none when it cannot be opened. *)
Definition sudoers_file_users (h : host) (filepath : string) : list string :=
  match fs h filepath with
  | RegularFile (Some content) =>
      concat (map sudoers_line_users (Str.readlines content))
  | _ => []
  end.

(** The members the group database yields; none when it cannot be opened. *)
Definition group_users (h : host) : list string :=
  match fs h "/etc/group" with
  | RegularFile (Some content) =>
      fold_left system_info.group_line (Str.readlines content) []
  | _ => []
  end.

(** The sudoers files of a host whose drop-in directory is absent or can be
    listed: the primary file, then the regular files of the directory. *)
Definition sudoers_sources (h : host) : list string :=
  "/etc/sudoers"
  :: match fs h "/etc/sudoers.d" with
     | Directory (Some names) =>
         map (os_path_join "/etc/sudoers.d")
             (List.filter
                (fun f => os_path_isfile h (os_path_join "/etc/sudoers.d" f))
                names)
     | _ => []
     end.

(** The drop-in directory is absent, or is a directory that can be listed. *)
Definition drop_in_listable (h : host) : Prop :=
  fs h "/etc/sudoers.d" = Missing
  \/ exists names, fs h "/etc/sudoers.d" = Directory (Some names).

(** /etc/sudoers.d is a regular file, not a directory. *)
Definition sudoers_d_is_file_host : host :=
  Host (proc_of [])
       (fs_of [ ("/etc/sudoers.d", RegularFile (Some "")) ])
       (Ok "localhost").

(** The address an [ip -6 addr show] line announces: the token after
    [inet6], without its prefix length. *)
Definition inet6_address (line : string) : option string :=
  match Str.split line with
  | kw :: addr :: _ =>
      if String.eqb kw "inet6" then Some (hd "" (Str.split_on "/" addr))
      else None
  | _ => None
  end.

(** A kernel parameter reads 1, and eth0 holds a global and a link-local
    address, both of which happen to contain the text ::1. *)
Definition ipv6_global_address_host : host :=
  Host
    (proc_of
       [ ("sysctl net.ipv6.conf.all.disable_ipv6",
          (0, "net.ipv6.conf.all.disable_ipv6 = 1" +:+ nl, ""));
         ("ip -6 addr show",
          (0, "1: lo: <LOOPBACK,UP,LOWER_UP> mtu 65536" +:+ nl +:+
              "    inet6 ::1/128 scope host" +:+ nl +:+
              "2: eth0: <BROADCAST,MULTICAST,UP,LOWER_UP> mtu 1500" +:+ nl +:+
              "    inet6 2001:db8::1/64 scope global" +:+ nl +:+
              "    inet6 fe80::1c2d:3eff:fe4f:5a6b/64 scope link" +:+ nl,
           "")) ])
    (fs_of [])
    (Ok "localhost").

(** * Properties *)

(** ** Facts about the [str] methods *)

Example strip_example :
  Str.strip ("  net.ipv6.conf.all.disable_ipv6 = 1" +:+ nl)
  = "net.ipv6.conf.all.disable_ipv6 = 1".
Proof. reflexivity. Qed.

Example split_example :
  Str.split (" search  a.com b.com" +:+ nl) = ["search"; "a.com"; "b.com"]
  /\ Str.split "   " = [].
Proof. split; reflexivity. Qed.

Example split_on_example :
  Str.split_on "=" "a = b=" = ["a "; " b"; ""]
  /\ Str.split_on ":" "sudo:x:27:bob,carol" = ["sudo"; "x"; "27"; "bob,carol"]
  /\ Str.split_on "," "" = [""].
Proof. repeat split. Qed.

Example readlines_example :
  Str.readlines ("a" +:+ nl +:+ "b") = ["a" +:+ nl; "b"].
Proof. reflexivity. Qed.

Example sysctl_value_example :
  system_info.sysctl_value ("net.ipv6.conf.lo.disable_ipv6 = 1" +:+ nl) = "1".
Proof. reflexivity. Qed.

Section StrFacts.

Implicit Types (s t w : string) (c : ascii).

Lemma prefix_chars p s c :
  String.prefix p s = true -> In c (chars p) -> In c (chars s).
Proof.
  revert s; induction p as [|a p IH]; intros s Hp Hc; [destruct Hc|].
  destruct s as [|b s]; simpl in Hp; [discriminate|].
  destruct (ascii_dec a b) as [->|]; [|discriminate].
  destruct Hc as [<-|Hc]; [now left|right; eauto].
Qed.

Lemma contains_chars sub s c :
  Str.contains sub s = true -> In c (chars sub) -> In c (chars s).
Proof.
  induction s as [|a s IH]; simpl; intros H Hc.
  - destruct sub; [destruct Hc|discriminate].
  - apply orb_true_iff in H as [H|H].
    + exact (prefix_chars _ (String a s) _ H Hc).
    + right. auto.
Qed.

Lemma split_on_nonempty sep s : Str.split_on sep s <> [].
Proof.
  destruct s as [|a s]; simpl; [discriminate|].
  destruct (Ascii.eqb a sep); [discriminate|].
  destruct (Str.split_on sep s); discriminate.
Qed.

Lemma split_on_chars sep s line c :
  In line (Str.split_on sep s) -> In c (chars line) -> In c (chars s).
Proof.
  revert line; induction s as [|a s IH]; simpl; intros line Hl Hc.
  - destruct Hl as [<-|[]]. destruct Hc.
  - destruct (Ascii.eqb a sep).
    + destruct Hl as [<-|Hl]; [destruct Hc|right; eauto].
    + destruct (Str.split_on sep s) as [|w ws] eqn:E.
      * destruct Hl as [<-|[]]. destruct Hc as [<-|[]]. now left.
      * destruct Hl as [<-|Hl].
        -- destruct Hc as [<-|Hc]; [now left|right].
           apply (IH w); [now left|exact Hc].
        -- right. apply (IH line); [now right|exact Hc].
Qed.

Lemma split_on_two sep s :
  In sep (chars s) -> exists a b r, Str.split_on sep s = a :: b :: r.
Proof.
  induction s as [|x s IH]; simpl; intros H; [destruct H|].
  destruct (Ascii.eqb_spec x sep) as [->|Hne].
  - pose proof (split_on_nonempty sep s).
    destruct (Str.split_on sep s) as [|b r]; [congruence|]. eauto.
  - destruct H as [->|H]; [congruence|].
    destruct (IH H) as (a & b & r & ->). eauto.
Qed.

Lemma lstrip_chars s c :
  In c (chars s) -> Str.isspace c = false -> In c (chars (Str.lstrip s)).
Proof.
  induction s as [|a s IH]; simpl; intros H Hc; [exact H|].
  destruct (Str.isspace a) eqn:Ea; [|exact H].
  destruct H as [->|H]; [congruence|auto].
Qed.

Lemma rstrip_truthy s c :
  In c (chars s) -> Str.isspace c = false -> Str.truthy (Str.rstrip s) = true.
Proof.
  induction s as [|a s IH]; simpl; intros H Hc; [destruct H|].
  destruct H as [->|H].
  - destruct (Str.rstrip s); [now rewrite Hc|reflexivity].
  - specialize (IH H Hc). destruct (Str.rstrip s); [discriminate|reflexivity].
Qed.

Lemma strip_truthy s c :
  In c (chars s) -> Str.isspace c = false -> Str.truthy (Str.strip s) = true.
Proof.
  intros H Hc. unfold Str.strip.
  apply (rstrip_truthy _ c); [apply lstrip_chars|]; assumption.
Qed.

Lemma split_nonempty s c :
  In c (chars s) -> Str.isspace c = false -> Str.split s <> [].
Proof.
  induction s as [|a s IH]; simpl; intros H Hc; [destruct H|].
  destruct (Str.isspace a) eqn:Ea.
  - destruct H as [->|H]; [congruence|auto].
  - destruct s as [|b s]; [discriminate|].
    destruct (Str.isspace b); [discriminate|].
    destruct (Str.split (String b s)); discriminate.
Qed.

Lemma split_lstrip s : Str.split (Str.lstrip s) = Str.split s.
Proof.
  induction s as [|a s IH]; [reflexivity|].
  cbn [Str.lstrip]. destruct (Str.isspace a) eqn:Ea; [|reflexivity].
  rewrite IH. cbn [Str.split]. now rewrite Ea.
Qed.

Lemma rstrip_head a s d r : Str.rstrip (String a s) = String d r -> d = a.
Proof.
  cbn [Str.rstrip]. destruct (Str.rstrip s).
  - destruct (Str.isspace a); [discriminate|congruence].
  - congruence.
Qed.

Lemma split_rstrip s : Str.split (Str.rstrip s) = Str.split s.
Proof.
  induction s as [|a s IH]; [reflexivity|].
  cbn [Str.rstrip].
  destruct (Str.rstrip s) as [|d r] eqn:Er.
  - cbn [Str.split] in IH |- *.
    destruct (Str.isspace a) eqn:Ea; [now cbn [Str.split]|].
    cbn [Str.split]. rewrite Ea.
    destruct s as [|b s]; [reflexivity|].
    destruct (Str.isspace b); rewrite <- IH; reflexivity.
  - destruct s as [|b s]; [discriminate|].
    apply rstrip_head in Er as Hd. subst d.
    rewrite <- Er in *.
    remember (Str.rstrip (String b s)) as R.
    assert (exists r', R = String b r') as [r' ->]
      by (subst R; rewrite Er; eauto).
    change (Str.split (String a (String b r')))
      with (if Str.isspace a then Str.split (String b r')
            else if Str.isspace b then String a "" :: Str.split (String b r')
            else match Str.split (String b r') with
                 | [] => [String a ""]
                 | w :: ws => String a w :: ws
                 end).
    change (Str.split (String a (String b s)))
      with (if Str.isspace a then Str.split (String b s)
            else if Str.isspace b then String a "" :: Str.split (String b s)
            else match Str.split (String b s) with
                 | [] => [String a ""]
                 | w :: ws => String a w :: ws
                 end).
    now rewrite IH.
Qed.

Lemma split_strip s : Str.split (Str.strip s) = Str.split s.
Proof. unfold Str.strip. now rewrite split_rstrip, split_lstrip. Qed.

Lemma prefix_head a p b s :
  String.prefix (String a p) (String b s) = true -> a = b.
Proof.
  simpl. destruct (ascii_dec a b); [trivial|discriminate].
Qed.

Lemma prefix_app w s : String.prefix w (w +:+ s) = true.
Proof.
  induction w as [|a w IH]; [now destruct s|].
  change (String a w +:+ s) with (String a (w +:+ s)).
  cbn [String.prefix]. destruct (ascii_dec a a); [exact IH|congruence].
Qed.

(** The first token of [split] is a run of non-blank characters at the head
    of the left-stripped string. *)
Lemma split_first s w ws :
  Str.split s = w :: ws ->
  Forall (fun c => Str.isspace c = false) (chars w)
  /\ exists rest, Str.lstrip s = w +:+ rest.
Proof.
  revert w ws; induction s as [|a s IH]; intros w ws; [discriminate|].
  cbn [Str.split Str.lstrip].
  destruct (Str.isspace a) eqn:Ea; [apply IH|].
  destruct s as [|b s].
  - intros [= <- <-]. split; [repeat constructor; exact Ea|now exists ""].
  - destruct (Str.isspace b) eqn:Eb.
    + intros [= <- <-]. split; [repeat constructor; exact Ea|].
      now exists (String b s).
    + destruct (Str.split (String b s)) as [|w' ws'] eqn:E.
      * intros [= <- <-]. split; [repeat constructor; exact Ea|].
        now exists (String b s).
      * intros [= <- <-].
        destruct (IH _ _ eq_refl) as [Hw [rest Hrest]].
        cbn [Str.lstrip] in Hrest. rewrite Eb in Hrest.
        split; [constructor; assumption|].
        exists rest. now rewrite Hrest.
Qed.

Lemma rstrip_app_nonblank w s :
  Forall (fun c => Str.isspace c = false) (chars w) ->
  Str.rstrip (w +:+ s) = w +:+ Str.rstrip s.
Proof.
  induction w as [|a w IH]; intros H; [reflexivity|].
  inversion H as [|? ? Ha Hw]; subst.
  change (String a w +:+ s) with (String a (w +:+ s)).
  cbn [Str.rstrip]. rewrite (IH Hw), Ha.
  change (String a w +:+ Str.rstrip s) with (String a (w +:+ Str.rstrip s)).
  now destruct (w +:+ Str.rstrip s).
Qed.

Lemma strip_startswith_first s w ws :
  Str.split s = w :: ws -> Str.startswith (Str.strip s) w = true.
Proof.
  intros H. destruct (split_first _ _ _ H) as [Hw [rest Hrest]].
  unfold Str.startswith, Str.strip.
  rewrite Hrest, (rstrip_app_nonblank _ _ Hw). apply prefix_app.
Qed.

End StrFacts.

(** ** get_dns_settings *)

Import system_info.

Lemma resolv_conf_line_adds d line :
  resolv_conf_line d line =
  Dns.Info (Dns.nameservers d ++ line_nameservers line)
           (Dns.search_domains d ++ line_search_domains line)
           (Dns.resolv_conf d).
Proof.
  unfold line_nameservers, line_search_domains, resolv_conf_line.
  destruct d as [ns sd p]; cbn [Dns.nameservers Dns.search_domains Dns.resolv_conf].
  destruct (Str.startswith (Str.strip line) "nameserver").
  - destruct (Str.split (Str.strip line)) as [|? [|? ?]]; cbn;
      now rewrite ?app_nil_r.
  - destruct (Str.startswith (Str.strip line) "search").
    + destruct (Str.split (Str.strip line)) as [|? [|? ?]]; cbn;
        now rewrite ?app_nil_r.
    + cbn. now rewrite !app_nil_r.
Qed.

Lemma resolv_conf_fold lines d :
  fold_left resolv_conf_line lines d =
  Dns.Info (Dns.nameservers d ++ concat (map line_nameservers lines))
           (Dns.search_domains d ++ concat (map line_search_domains lines))
           (Dns.resolv_conf d).
Proof.
  revert d; induction lines as [|l lines IH]; intros d; cbn [fold_left map concat].
  - destruct d; cbn. now rewrite !app_nil_r.
  - rewrite IH, resolv_conf_line_adds. cbn. now rewrite <- !app_assoc.
Qed.

Lemma nameserver_line_adds line addr rest :
  Str.split line = "nameserver" :: addr :: rest ->
  line_nameservers line = [addr] /\ line_search_domains line = [].
Proof.
  intros H. unfold line_nameservers, line_search_domains, resolv_conf_line.
  rewrite (strip_startswith_first _ _ _ H), split_strip, H. now split.
Qed.

Lemma search_line_adds line dom doms :
  Str.split line = "search" :: dom :: doms ->
  line_nameservers line = [] /\ line_search_domains line = dom :: doms.
Proof.
  intros H. unfold line_nameservers, line_search_domains, resolv_conf_line.
  pose proof (strip_startswith_first _ _ _ H) as Hs.
  destruct (Str.startswith (Str.strip line) "nameserver") eqn:Hn.
  - exfalso. unfold Str.startswith in *.
    destruct (Str.strip line) as [|c s]; [discriminate|].
    apply prefix_head in Hs, Hn. congruence.
  - rewrite Hs, split_strip, H. now split.
Qed.

(** C8. When /etc/resolv.conf is readable, [get_dns_settings] returns, and
    its two lists are the per-line contributions concatenated in file order:
    a line whose tokens are [nameserver <addr> ...] contributes exactly
    [<addr>] to [nameservers], a line whose tokens are
    [search <dom1> <dom2> ...] contributes exactly all of its domains to
    [search_domains].  On the example file the result is
    nameservers = 8.8.8.8 and search_domains = a.com, b.com. *)
Theorem dns_lines_in_file_order (h : host) (content : string) (tr : list call) :
  fs h "/etc/resolv.conf" = RegularFile (Some content) ->
  exists d,
    get_dns_settings h tr = (Ok d, tr)
    /\ Dns.nameservers d = concat (map line_nameservers (Str.readlines content))
    /\ Dns.search_domains d
       = concat (map line_search_domains (Str.readlines content))
    /\ (forall line addr rest,
          Str.split line = "nameserver" :: addr :: rest ->
          line_nameservers line = [addr] /\ line_search_domains line = [])
    /\ (forall line dom doms,
          Str.split line = "search" :: dom :: doms ->
          line_nameservers line = [] /\ line_search_domains line = dom :: doms)
    /\ (content = resolv_example ->
        Dns.nameservers d = ["8.8.8.8"]
        /\ Dns.search_domains d = ["a.com"; "b.com"]).
Proof.
  intros Hfs.
  exists (fold_left resolv_conf_line (Str.readlines content)
            (Dns.Info [] [] "/etc/resolv.conf")).
  split.
  { unfold get_dns_settings, os_path_exists, try_except, bind, open_read.
    now rewrite Hfs. }
  rewrite resolv_conf_fold. cbn [Dns.nameservers Dns.search_domains app].
  split; [reflexivity|]. split; [reflexivity|].
  split; [exact nameserver_line_adds|].
  split; [exact search_line_adds|].
  intros ->. now split.
Qed.

Lemma dns_lines_in_file_order_example :
  exists d,
    get_dns_settings dns_host [] = (Ok d, [])
    /\ Dns.nameservers d = ["8.8.8.8"]
    /\ Dns.search_domains d = ["a.com"; "b.com"].
Proof.
  destruct (dns_lines_in_file_order dns_host resolv_example [] eq_refl)
    as (d & Hrun & _ & _ & _ & _ & Hex).
  exists d. destruct (Hex eq_refl) as [Hns Hsd]. now repeat split.
Defined.

(** ** get_ipv6_status *)

Lemma sysctl_step_spec h i p tr :
  exists i',
    sysctl_step h i p tr = (Ok i', tr ++ [Call ("sysctl " +:+ p) []])
    /\ Ipv6.status i' = Ipv6.status i
    /\ Ipv6.disabled i' = Ipv6.disabled i || sysctl_evidence h p
    /\ Ipv6.disable_method i'
       = Ipv6.disable_method i ++ (if sysctl_evidence h p then ["sysctl"] else []).
Proof.
  unfold sysctl_step, sysctl_evidence, bind, run_command, ret.
  destruct (proc h ("sysctl " +:+ p)) as [[rc out] err].
  destruct (rc =? 0); cbn [andb].
  - destruct (Str.eqb (sysctl_value out) "1"); eexists; (split; [reflexivity|]);
      destruct i as [d m v s]; cbn; rewrite ?orb_true_r, ?orb_false_r, ?app_nil_r;
      auto.
  - eexists; split; [reflexivity|].
    now rewrite orb_false_r, app_nil_r.
Qed.

Lemma sysctl_pass_spec h params i tr :
  exists i',
    for_each params (sysctl_step h) i tr
    = (Ok i', tr ++ map (fun p => Call ("sysctl " +:+ p) []) params)
    /\ Ipv6.status i' = Ipv6.status i
    /\ Ipv6.disabled i' = Ipv6.disabled i || existsb (sysctl_evidence h) params
    /\ Ipv6.disable_method i'
       = Ipv6.disable_method i
         ++ map (fun _ => "sysctl") (List.filter (sysctl_evidence h) params).
Proof.
  revert i tr; induction params as [|p params IH]; intros i tr.
  - exists i. cbn. now rewrite orb_false_r, !app_nil_r.
  - destruct (sysctl_step_spec h i p tr) as (i1 & Hrun & Hs & Hd & Hm).
    destruct (IH i1 (tr ++ [Call ("sysctl " +:+ p) []]))
      as (i2 & Hrun2 & Hs2 & Hd2 & Hm2).
    exists i2. cbn [for_each]. unfold bind at 1. rewrite Hrun, Hrun2.
    rewrite <- app_assoc. split; [reflexivity|].
    rewrite Hs2, Hs, Hd2, Hd, Hm2, Hm. cbn [existsb List.filter].
    split; [reflexivity|]. split; [now rewrite orb_assoc|].
    rewrite <- app_assoc. now destruct (sysctl_evidence h p).
Qed.

Lemma grub_step_spec h i g tr :
  exists i',
    grub_step h i g tr = (Ok i', tr)
    /\ Ipv6.status i' = Ipv6.status i
    /\ Ipv6.disabled i' = Ipv6.disabled i || grub_evidence h g
    /\ (Ipv6.disable_method i' = Ipv6.disable_method i
        \/ Ipv6.disable_method i' = Ipv6.disable_method i ++ ["grub"]).
Proof.
  unfold grub_step, grub_evidence, os_path_exists, try_except, bind, open_read,
    ret, raise.
  destruct (fs h g) as [|[content|]|entries]; cbv beta iota.
  - exists i. rewrite orb_false_r. auto.
  - destruct (Str.contains "ipv6.disable=1" content).
    + destruct i as [d m v s].
      cbn [Ipv6.set_disabled Ipv6.disable_method Ipv6.disabled
           Ipv6.sysctl_values Ipv6.status].
      destruct (Str.mem "grub" m);
        eexists; (split; [reflexivity|]); cbn [negb Ipv6.append_method
           Ipv6.disable_method Ipv6.disabled Ipv6.status];
        rewrite orb_true_r; auto.
    + exists i. rewrite orb_false_r. auto.
  - exists i. rewrite orb_false_r. auto.
  - exists i. rewrite orb_false_r. auto.
Qed.

Lemma grub_pass_spec h files i tr :
  exists i',
    for_each files (grub_step h) i tr = (Ok i', tr)
    /\ Ipv6.status i' = Ipv6.status i
    /\ Ipv6.disabled i' = Ipv6.disabled i || existsb (grub_evidence h) files
    /\ count_occ String.string_dec (Ipv6.disable_method i') "sysctl"
       = count_occ String.string_dec (Ipv6.disable_method i) "sysctl".
Proof.
  revert i; induction files as [|g files IH]; intros i.
  - exists i. cbn. now rewrite orb_false_r.
  - destruct (grub_step_spec h i g tr) as (i1 & Hrun & Hs & Hd & Hm).
    destruct (IH i1) as (i2 & Hrun2 & Hs2 & Hd2 & Hm2).
    exists i2. cbn [for_each]. unfold bind at 1. rewrite Hrun, Hrun2.
    split; [reflexivity|]. rewrite Hs2, Hs, Hd2, Hd, Hm2. cbn [existsb].
    split; [reflexivity|]. split; [now rewrite orb_assoc|].
    destruct Hm as [->| ->]; [reflexivity|].
    rewrite count_occ_app. cbn. lia.
Qed.

Lemma has_ipv6_found lines line :
  In line lines ->
  Str.contains "inet6" line = true -> Str.contains "::1" line = false ->
  has_ipv6 lines = true.
Proof.
  induction lines as [|l lines IH]; intros Hin H6 Hlo; [destruct Hin|].
  cbn [has_ipv6]. destruct Hin as [->|Hin].
  - now rewrite H6, Hlo.
  - destruct (Str.contains "inet6" l && negb (Str.contains "::1" l)); auto.
Qed.

Lemma has_ipv6_none lines :
  (forall line, In line lines ->
     Str.contains "inet6" line = true -> Str.contains "::1" line = true) ->
  has_ipv6 lines = false.
Proof.
  induction lines as [|l lines IH]; intros H; [reflexivity|].
  cbn [has_ipv6].
  destruct (Str.contains "inet6" l) eqn:E6; cbn [andb].
  - rewrite (H l (or_introl eq_refl) E6). cbn. apply IH.
    intros line Hin. apply H. now right.
  - apply IH. intros line Hin. apply H. now right.
Qed.

(** A line that mentions inet6 makes the whole output non-blank. *)
Lemma inet6_line_truthy out line :
  In line (Str.split_on "010" out) ->
  Str.contains "inet6" line = true ->
  Str.truthy (Str.strip out) = true.
Proof.
  intros Hin H6. apply (strip_truthy out "i"%char); [|reflexivity].
  apply (split_on_chars _ _ _ _ Hin).
  apply (contains_chars _ _ _ H6). now left.
Qed.

Lemma live_pass_found h i tr rc out err line :
  proc h "ip -6 addr show" = (rc, out, err) ->
  rc = 0 ->
  In line (Str.split_on "010" out) ->
  Str.contains "inet6" line = true -> Str.contains "::1" line = false ->
  live_pass h i tr
  = (Ok (Ipv6.set_disabled false (Ipv6.set_status "enabled" i)),
     tr ++ [Call "ip -6 addr show" []]).
Proof.
  intros Hp -> Hin H6 Hlo.
  unfold live_pass, bind, run_command. rewrite Hp. cbv beta iota.
  rewrite (inet6_line_truthy _ _ Hin H6), (has_ipv6_found _ _ Hin H6 Hlo).
  reflexivity.
Qed.

Lemma live_pass_none h i tr :
  Ipv6.disabled i = false ->
  (forall rc out err line,
     proc h "ip -6 addr show" = (rc, out, err) -> rc = 0 ->
     In line (Str.split_on "010" out) ->
     Str.contains "inet6" line = true -> Str.contains "::1" line = true) ->
  live_pass h i tr = (Ok i, tr ++ [Call "ip -6 addr show" []]).
Proof.
  intros Hd Hnone.
  unfold live_pass, bind, run_command.
  destruct (proc h "ip -6 addr show") as [[rc out] err] eqn:Hp. cbv beta iota.
  destruct (Z.eqb_spec rc 0) as [->|Hrc]; [|reflexivity].
  destruct (Str.truthy (Str.strip out)); [|reflexivity].
  cbn [andb].
  rewrite (has_ipv6_none (Str.split_on "010" out)), Hd; [reflexivity|].
  intros line. exact (Hnone 0 out err line eq_refl eq_refl).
Qed.

(** The override as the collector applies it.  On every host where
    [ip -6 addr show] exits with 0 and some line of its output mentions
    inet6 and does not contain the text ::1, [get_ipv6_status] returns with
    disabled = false and status = enabled, whatever the kernel-parameter
    and bootloader passes found before. *)
Theorem ipv6_live_address_overrides (h : host) (tr : list call)
    (rc : Z) (out err line : string) :
  proc h "ip -6 addr show" = (rc, out, err) ->
  rc = 0 ->
  In line (Str.split_on "010" out) ->
  Str.contains "inet6" line = true ->
  Str.contains "::1" line = false ->
  exists i tr',
    get_ipv6_status h tr = (Ok i, tr')
    /\ Ipv6.disabled i = false
    /\ Ipv6.status i = Some "enabled".
Proof.
  intros Hp Hrc Hin H6 Hlo. unfold get_ipv6_status.
  destruct (sysctl_pass_spec h sysctl_params (Ipv6.Info false [] ∅ None) tr)
    as (i1 & Hrun1 & _).
  destruct (grub_pass_spec h grub_files i1
              (tr ++ map (fun p => Call ("sysctl " +:+ p) []) sysctl_params))
    as (i2 & Hrun2 & _).
  unfold bind at 1. rewrite Hrun1.
  unfold bind at 1. rewrite Hrun2.
  unfold bind at 1. rewrite (live_pass_found h i2 _ rc out err line) by assumption.
  eexists _, _. split; [reflexivity|]. now split.
Qed.

Lemma ipv6_live_address_overrides_witness :
  existsb (sysctl_evidence ipv6_conflict_host) sysctl_params = true
  /\ existsb (grub_evidence ipv6_conflict_host) grub_files = true
  /\ exists i tr',
       get_ipv6_status ipv6_conflict_host [] = (Ok i, tr')
       /\ Ipv6.disabled i = false
       /\ Ipv6.status i = Some "enabled".
Proof.
  split; [reflexivity|]. split; [reflexivity|].
  eapply (ipv6_live_address_overrides ipv6_conflict_host [] 0 _ ""
            "    inet6 fe80::5054:ff:fe12:3456/64 scope link").
  - reflexivity.
  - reflexivity.
  - vm_compute. right. left. reflexivity.
  - reflexivity.
  - reflexivity.
Defined.

(** C1.  The override law fails on live addresses whose text contains
    ::1.  The host below has a kernel parameter reading 1 and a successful
    live query that lists, beside the loopback address, the global address
    2001:db8::1 and the link-local address fe80::1c2d:3eff:fe4f:5a6b.
    Neither is the loopback address, yet both lines contain the text ::1,
    so the substring test counts neither: the result keeps disabled = true
    and gets status = disabled, where the law (and the source's own comment,
    "IPv6 addresses (other than ::1)") asks for disabled = false and
    status = enabled. *)
Theorem ipv6_override_misses_addresses_containing_loopback_text :
  let global := "    inet6 2001:db8::1/64 scope global" in
  let link := "    inet6 fe80::1c2d:3eff:fe4f:5a6b/64 scope link" in
  (exists out err,
      proc ipv6_global_address_host "ip -6 addr show" = (0, out, err)
      /\ In global (Str.split_on "010" out)
      /\ In link (Str.split_on "010" out))
  /\ Str.contains "inet6" global = true
  /\ inet6_address global = Some "2001:db8::1"
  /\ Str.contains "inet6" link = true
  /\ inet6_address link = Some "fe80::1c2d:3eff:fe4f:5a6b"
  /\ sysctl_evidence ipv6_global_address_host
       "net.ipv6.conf.all.disable_ipv6" = true
  /\ match fst (get_ipv6_status ipv6_global_address_host []) with
     | Ok i => Ipv6.disabled i = true /\ Ipv6.status i = Some "disabled"
     | Raise _ => False
     end.
Proof.
  cbv zeta. split.
  { eexists _, _. split; [reflexivity|]. vm_compute. tauto. }
  vm_compute. repeat split.
Qed.

(** C7. IPv6 conjunction law.  On every host where no queried kernel
    parameter reads 1, no readable bootloader file carries ipv6.disable=1,
    and the live query (when it succeeds) shows no inet6 line apart from
    those mentioning ::1, [get_ipv6_status] returns with disabled = false
    and without a status key. *)
Theorem ipv6_no_evidence_no_status (h : host) (tr : list call) :
  (forall p, In p sysctl_params -> sysctl_evidence h p = false) ->
  (forall g, In g grub_files -> grub_evidence h g = false) ->
  (forall rc out err line,
     proc h "ip -6 addr show" = (rc, out, err) -> rc = 0 ->
     In line (Str.split_on "010" out) ->
     Str.contains "inet6" line = true -> Str.contains "::1" line = true) ->
  exists i tr',
    get_ipv6_status h tr = (Ok i, tr')
    /\ Ipv6.disabled i = false
    /\ Ipv6.status i = None.
Proof.
  intros Hsys Hgrub Hlive. unfold get_ipv6_status.
  destruct (sysctl_pass_spec h sysctl_params (Ipv6.Info false [] ∅ None) tr)
    as (i1 & Hrun1 & Hs1 & Hd1 & _).
  destruct (grub_pass_spec h grub_files i1
              (tr ++ map (fun p => Call ("sysctl " +:+ p) []) sysctl_params))
    as (i2 & Hrun2 & Hs2 & Hd2 & _).
  assert (existsb (sysctl_evidence h) sysctl_params = false) as E1.
  { apply not_true_is_false. intros [p [Hin Hp]]%existsb_exists.
    rewrite (Hsys p Hin) in Hp. discriminate. }
  assert (existsb (grub_evidence h) grub_files = false) as E2.
  { apply not_true_is_false. intros [g [Hin Hg]]%existsb_exists.
    rewrite (Hgrub g Hin) in Hg. discriminate. }
  rewrite Hd1, E1 in Hd2. rewrite E2 in Hd2. cbn in Hd2, Hs1.
  unfold bind at 1. rewrite Hrun1.
  unfold bind at 1. rewrite Hrun2.
  unfold bind at 1. rewrite (live_pass_none h i2 _ Hd2 Hlive).
  eexists _, _. split; [reflexivity|]. split; [exact Hd2|]. congruence.
Qed.

Lemma ipv6_no_evidence_no_status_witness :
  exists i tr',
    get_ipv6_status ipv6_quiet_host [] = (Ok i, tr')
    /\ Ipv6.disabled i = false
    /\ Ipv6.status i = None.
Proof.
  apply (ipv6_no_evidence_no_status ipv6_quiet_host []).
  - intros p Hp. cbn in Hp.
    destruct Hp as [<-|[<-|[<-|[]]]]; reflexivity.
  - intros g Hg. cbn in Hg.
    destruct Hg as [<-|[<-|[<-|[]]]]; reflexivity.
  - intros rc out err line Hp _ Hin H6.
    vm_compute in Hp. injection Hp as <- <- <-.
    vm_compute in Hin.
    destruct Hin as [<-|[<-|[<-|[]]]]; first [discriminate H6 | reflexivity].
Defined.

(** The collector tells a line from the loopback address by text: an address
    such as fe80::1 also mentions ::1 and is set aside with it. *)
Lemma inet6_test_is_textual :
  has_ipv6 ["    inet6 fe80::1/64 scope link"] = false
  /\ has_ipv6 ["    inet6 ::1/128 scope host"] = false
  /\ has_ipv6 ["    inet6 fe80::5054:ff:fe12:3456/64 scope link"] = true.
Proof. repeat split. Qed.

Lemma live_pass_methods h i tr :
  exists i',
    live_pass h i tr = (Ok i', tr ++ [Call "ip -6 addr show" []])
    /\ Ipv6.disable_method i' = Ipv6.disable_method i.
Proof.
  unfold live_pass, bind, run_command, ret.
  destruct (proc h "ip -6 addr show") as [[rc out] err]. cbv beta iota.
  destruct ((rc =? 0) && Str.truthy (Str.strip out)).
  - destruct (has_ipv6 (Str.split_on "010" out)); cbn [negb andb].
    + eexists; split; [reflexivity|]. now destruct i.
    + destruct (Ipv6.disabled i); eexists; (split; [reflexivity|]);
        now destruct i.
  - eexists; split; reflexivity.
Qed.

Lemma count_occ_constant {A} (x : string) (l : list A) :
  count_occ String.string_dec (map (fun _ => x) l) x = length l.
Proof.
  induction l as [|a l IH]; [reflexivity|].
  cbn [map count_occ length].
  destruct (String.string_dec x x); [now rewrite IH|congruence].
Qed.

(** The method is recorded once per matching parameter, not once per run. *)
Lemma sysctl_recorded_per_match h tr :
  exists i tr',
    get_ipv6_status h tr = (Ok i, tr')
    /\ count_occ String.string_dec (Ipv6.disable_method i) "sysctl"
       = length (List.filter (sysctl_evidence h) sysctl_params).
Proof.
  unfold get_ipv6_status.
  destruct (sysctl_pass_spec h sysctl_params (Ipv6.Info false [] ∅ None) tr)
    as (i1 & Hrun1 & _ & _ & Hm1).
  destruct (grub_pass_spec h grub_files i1
              (tr ++ map (fun p => Call ("sysctl " +:+ p) []) sysctl_params))
    as (i2 & Hrun2 & _ & _ & Hm2).
  destruct (live_pass_methods h i2
              (tr ++ map (fun p => Call ("sysctl " +:+ p) []) sysctl_params))
    as (i3 & Hrun3 & Hm3).
  unfold bind at 1. rewrite Hrun1.
  unfold bind at 1. rewrite Hrun2.
  unfold bind at 1. rewrite Hrun3.
  eexists _, _. split; [reflexivity|].
  rewrite Hm3, Hm2, Hm1. cbn [Ipv6.disable_method app].
  apply count_occ_constant.
Qed.

(** C2. On a host whose three kernel parameters all read 1 the method
    "sysctl" is appended three times: the result lists it once per matching
    parameter, where the bootloader pass checks membership before it
    appends "grub". *)
Theorem sysctl_method_repeated :
  match fst (get_ipv6_status ipv6_conflict_host []) with
  | Ok i =>
      Ipv6.disable_method i = ["sysctl"; "sysctl"; "sysctl"; "grub"]
      /\ count_occ String.string_dec (Ipv6.disable_method i) "sysctl" = 3%nat
      /\ count_occ String.string_dec (Ipv6.disable_method i) "grub" = 1%nat
  | Raise _ => False
  end.
Proof. vm_compute. repeat split. Qed.

(** ** get_ntp_settings *)

Lemma timesync_line_spec n line tr :
  exists n',
    timesync_line n line tr = (Ok n', tr) /\ Ntp.service n' = Ntp.service n.
Proof.
  unfold timesync_line.
  destruct (Str.contains "ServerName=" line) eqn:E; [|now exists n].
  assert (In "="%char (chars line)) as Heq.
  { apply (contains_chars _ _ _ E). cbn. tauto. }
  destruct (split_on_two _ _ Heq) as (a & b & r & ->).
  unfold bind, index, ret. cbn [nth_error].
  destruct (Str.truthy (Str.strip b)); eexists; split; reflexivity.
Qed.

Lemma timesync_loop_spec lines n tr :
  exists n',
    for_each lines timesync_line n tr = (Ok n', tr)
    /\ Ntp.service n' = Ntp.service n.
Proof.
  revert n; induction lines as [|l lines IH]; intros n; [now exists n|].
  destruct (timesync_line_spec n l tr) as (n1 & Hrun & Hs).
  destruct (IH n1) as (n2 & Hrun2 & Hs2).
  exists n2. cbn [for_each]. unfold bind. rewrite Hrun, Hrun2.
  split; [reflexivity|congruence].
Qed.

Lemma read_servers_spec h conf body n tr :
  (forall n line, Ntp.service (body n line) = Ntp.service n) ->
  exists n',
    read_servers h conf body n tr = (Ok n', tr)
    /\ Ntp.service n' = Ntp.service n.
Proof.
  intros Hbody.
  unfold read_servers, os_path_exists, try_except, bind, open_read, ret, raise.
  assert (forall lines n, Ntp.service (fold_left body lines n) = Ntp.service n)
    as Hfold.
  { induction lines as [|l lines IH]; intros m; [reflexivity|].
    cbn [fold_left]. now rewrite IH. }
  destruct (fs h conf) as [|[content|]|entries]; cbv beta iota;
    eexists; split; try reflexivity.
  apply Hfold.
Qed.

Lemma chrony_conf_line_service n line :
  Ntp.service (chrony_conf_line n line) = Ntp.service n.
Proof.
  unfold chrony_conf_line.
  destruct (_ || _); [|reflexivity].
  now destruct (Str.split line) as [|? [|? ?]]; destruct n.
Qed.

Lemma ntp_conf_line_service n line :
  Ntp.service (ntp_conf_line n line) = Ntp.service n.
Proof.
  unfold ntp_conf_line.
  destruct (Str.startswith _ _); [|reflexivity].
  now destruct (Str.split line) as [|? [|? ?]]; destruct n.
Qed.

(** The three detection tests, spelled with the commands of the source. *)
Lemma detected_commands h :
  detected h "chronyd" = (let '(rc, _, _) := proc h "which chronyd" in rc =? 0)
  /\ detected h "ntpd" = (let '(rc, _, _) := proc h "which ntpd" in rc =? 0)
  /\ detected h "systemd-timesyncd"
     = (let '(rc, _, _) := proc h "which systemd-timesyncd" in rc =? 0).
Proof. repeat split. Qed.

(** The run of the collector once the three detection results are known. *)
Lemma get_ntp_settings_run h tr :
  exists n,
    get_ntp_settings h tr = (Ok n, tr ++ calls (probe_script (first_detected h)))
    /\ Ntp.service n = default "unknown" (first_detected h)
    /\ (first_detected h = None -> n = Ntp.Info "unknown" false [] "unknown").
Proof.
  unfold get_ntp_settings, first_detected, backends, detected.
  cbn [List.find].
  change ("which " +:+ "chronyd") with "which chronyd".
  change ("which " +:+ "ntpd") with "which ntpd".
  change ("which " +:+ "systemd-timesyncd") with "which systemd-timesyncd".
  unfold bind at 1. unfold run_command at 1.
  destruct (proc h "which chronyd") as [[rc1 out1] err1].
  destruct (rc1 =? 0).
  - (* chronyd wins *)
    unfold bind at 1. unfold bind at 1. unfold run_command at 1.
    destruct (proc h "systemctl is-active chronyd") as [[rc out] err].
    edestruct (read_servers_spec h "/etc/chrony.conf" chrony_conf_line)
      as (n1 & -> & Hs1); [exact chrony_conf_line_service|].
    cbn [Ntp.service record_active Ntp.set_status Ntp.set_enabled
         Ntp.set_service] in Hs1.
    unfold bind at 1. unfold run_command at 1.
    destruct (proc h "which ntpd") as [[rc2 out2] err2].
    unfold bind at 1. rewrite Hs1.
    replace ((rc2 =? 0) && Str.eqb "chronyd" "unknown") with false
      by now rewrite andb_false_r.
    unfold ret at 1.
    unfold bind at 1. unfold run_command at 1.
    destruct (proc h "which systemd-timesyncd") as [[rc3 out3] err3].
    unfold bind at 1. rewrite Hs1.
    replace ((rc3 =? 0) && Str.eqb "chronyd" "unknown") with false
      by now rewrite andb_false_r.
    unfold ret.
    exists n1. rewrite <- !app_assoc. split; [reflexivity|].
    split; [exact Hs1|discriminate].
  - unfold bind at 1. unfold ret at 1.
    unfold bind at 1. unfold run_command at 1.
    destruct (proc h "which ntpd") as [[rc2 out2] err2].
    cbn [Ntp.service].
    replace (Str.eqb "unknown" "unknown") with true by reflexivity.
    rewrite !andb_true_r.
    destruct (rc2 =? 0).
    + (* ntpd wins *)
      unfold bind at 1. unfold bind at 1. unfold run_command at 1.
      destruct (proc h "systemctl is-active ntpd") as [[rc out] err].
      edestruct (read_servers_spec h "/etc/ntp.conf" ntp_conf_line)
        as (n1 & -> & Hs1); [exact ntp_conf_line_service|].
      cbn [Ntp.service record_active Ntp.set_status Ntp.set_enabled
           Ntp.set_service] in Hs1.
      unfold bind at 1. unfold run_command at 1.
      destruct (proc h "which systemd-timesyncd") as [[rc3 out3] err3].
      unfold bind at 1. rewrite Hs1.
      replace ((rc3 =? 0) && Str.eqb "ntpd" "unknown") with false
        by now rewrite andb_false_r.
      unfold ret.
      exists n1. rewrite <- !app_assoc. split; [reflexivity|].
      split; [exact Hs1|discriminate].
    + unfold bind at 1. unfold ret at 1.
      unfold bind at 1. unfold run_command at 1.
      destruct (proc h "which systemd-timesyncd") as [[rc3 out3] err3].
      cbn [Ntp.service].
      replace (Str.eqb "unknown" "unknown") with true by reflexivity.
      rewrite !andb_true_r.
      destruct (rc3 =? 0).
      * (* systemd-timesyncd wins *)
        unfold bind at 1. unfold bind at 1. unfold run_command at 1.
        destruct (proc h "systemctl is-active systemd-timesyncd")
          as [[rc out] err].
        unfold bind at 1. unfold run_command at 1.
        destruct (proc h "timedatectl show-timesync --all")
          as [[rc4 out4] err4].
        destruct (rc4 =? 0).
        -- edestruct (timesync_loop_spec (Str.split_on "010" out4))
             as (n1 & -> & Hs1).
           unfold ret. exists n1. rewrite <- !app_assoc.
           split; [reflexivity|]. split; [exact Hs1|discriminate].
        -- unfold ret. eexists. rewrite <- !app_assoc.
           split; [reflexivity|]. split; [reflexivity|discriminate].
      * unfold bind, ret. eexists. rewrite <- !app_assoc.
        split; [reflexivity|]. split; reflexivity.
Qed.

Example probe_script_cases :
  probe_script (Some "chronyd")
  = ["which chronyd"; "systemctl is-active chronyd"; "which ntpd";
     "which systemd-timesyncd"]
  /\ probe_script (Some "ntpd")
     = ["which chronyd"; "which ntpd"; "systemctl is-active ntpd";
        "which systemd-timesyncd"]
  /\ probe_script (Some "systemd-timesyncd")
     = ["which chronyd"; "which ntpd"; "which systemd-timesyncd";
        "systemctl is-active systemd-timesyncd";
        "timedatectl show-timesync --all"]
  /\ probe_script None
     = ["which chronyd"; "which ntpd"; "which systemd-timesyncd"].
Proof. repeat split. Qed.

(** C3, as stated, fails: on a host with chronyd and ntpd both installed the
    service resolves to chronyd, and the presence checks of ntpd and of
    systemd-timesyncd are run all the same. *)
Lemma lower_priority_backends_probed :
  detected ntp_both_host "chronyd" = true
  /\ (exists n, fst (get_ntp_settings ntp_both_host []) = Ok n
                /\ Ntp.service n = "chronyd")
  /\ In (Call "which ntpd" []) (snd (get_ntp_settings ntp_both_host []))
  /\ In (Call "which systemd-timesyncd" [])
        (snd (get_ntp_settings ntp_both_host [])).
Proof.
  split; [reflexivity|]. split; [eexists; split; reflexivity|].
  assert (snd (get_ntp_settings ntp_both_host [])
          = calls (probe_script (Some "chronyd"))) as -> by reflexivity.
  cbn. tauto.
Qed.

(** C3, amended.  Every run issues the three presence checks in the order
    chronyd, ntpd, systemd-timesyncd.  When some backend is present, the
    service is the first one found present, and the only other commands of
    the run are the follow-ups of that backend: no status query or server
    query is made for any other backend. *)
Theorem first_detected_backend_wins (h : host) (tr : list call) (b : string) :
  first_detected h = Some b ->
  exists n,
    get_ntp_settings h tr = (Ok n, tr ++ calls (probe_script (Some b)))
    /\ Ntp.service n = b.
Proof.
  intros Hb. destruct (get_ntp_settings_run h tr) as (n & Hrun & Hs & _).
  rewrite Hb in Hrun, Hs. now exists n.
Qed.

Lemma first_detected_backend_wins_witness :
  exists n,
    get_ntp_settings ntp_both_host []
    = (Ok n, calls ["which chronyd"; "systemctl is-active chronyd";
                    "which ntpd"; "which systemd-timesyncd"])
    /\ Ntp.service n = "chronyd".
Proof.
  exact (first_detected_backend_wins ntp_both_host [] "chronyd" eq_refl).
Defined.

(** C4.  When none of the three presence checks succeeds, the collector
    returns its initial dictionary untouched: the service is the "unknown"
    placeholder (no service), enabled is false, the servers list is empty,
    and the raw status is "unknown" as well. *)
Theorem no_backend_leaves_defaults (h : host) (tr : list call) :
  detected h "chronyd" = false ->
  detected h "ntpd" = false ->
  detected h "systemd-timesyncd" = false ->
  get_ntp_settings h tr
  = (Ok (Ntp.Info "unknown" false [] "unknown"),
     tr ++ calls ["which chronyd"; "which ntpd"; "which systemd-timesyncd"]).
Proof.
  intros H1 H2 H3.
  assert (first_detected h = None) as Hnone.
  { unfold first_detected, backends. cbn [List.find]. now rewrite H1, H2, H3. }
  destruct (get_ntp_settings_run h tr) as (n & Hrun & _ & Hn).
  rewrite Hnone in Hrun. now rewrite <- (Hn Hnone).
Qed.

Lemma no_backend_leaves_defaults_witness :
  get_ntp_settings bare_host []
  = (Ok (Ntp.Info "unknown" false [] "unknown"),
     calls ["which chronyd"; "which ntpd"; "which systemd-timesyncd"]).
Proof.
  apply (no_backend_leaves_defaults bare_host []); reflexivity.
Defined.

(** ** Computations that run no command *)

Lemma silent_ret {A} (a : A) : silent (ret a).
Proof. intros tr. reflexivity. Qed.

Lemma silent_raise {A} e : silent (@raise A e).
Proof. intros tr. reflexivity. Qed.

Lemma silent_bind {A B} (c : Py A) (k : A -> Py B) :
  silent c -> (forall a, silent (k a)) -> silent (bind c k).
Proof.
  intros Hc Hk tr. unfold bind. specialize (Hc tr).
  destruct (c tr) as [[a|e] tr']; cbn in Hc; subst tr'; [apply Hk|reflexivity].
Qed.

Lemma silent_try_except {A} (c : Py A) classes handler :
  silent c -> (forall e, silent (handler e)) ->
  silent (try_except c classes handler).
Proof.
  intros Hc Hh tr. unfold try_except. specialize (Hc tr).
  destruct (c tr) as [[a|e] tr']; cbn in Hc; subst tr'; [reflexivity|].
  destruct (classes e); [apply Hh|reflexivity].
Qed.

Lemma silent_for_each {A S} (l : list A) (body : S -> A -> Py S) s :
  (forall s x, silent (body s x)) -> silent (for_each l body s).
Proof.
  intros Hb. revert s; induction l as [|x l IH]; intros s; cbn [for_each].
  - apply silent_ret.
  - apply silent_bind; [apply Hb|exact IH].
Qed.

Lemma silent_index l i : silent (index l i).
Proof. unfold index. destruct (nth_error l i); [apply silent_ret|apply silent_raise]. Qed.

Lemma silent_open_read h p : silent (open_read h p).
Proof.
  unfold open_read.
  destruct (fs h p) as [|[?|]|?]; first [apply silent_ret|apply silent_raise].
Qed.

Lemma silent_os_listdir h p : silent (os_listdir h p).
Proof.
  unfold os_listdir.
  destruct (fs h p) as [|?|[?|]]; first [apply silent_ret|apply silent_raise].
Qed.

Lemma silent_if {A} (b : bool) (c1 c2 : Py A) :
  silent c1 -> silent c2 -> silent (if b then c1 else c2).
Proof. now destruct b. Qed.

(** ** get_sudo_users *)

Lemma sudoers_line_returns users line tr :
  exists users', sudoers_line users line tr = (Ok users', tr).
Proof.
  unfold sudoers_line.
  destruct (_ || negb _); [now eexists|].
  destruct (Str.contains "ALL=(ALL" (Str.strip line)
            || Str.contains "ALL = (ALL" (Str.strip line)) eqn:E;
    [|now eexists].
  assert (In "A"%char (chars (Str.strip line))) as HA.
  { apply orb_true_iff in E as [E|E];
      apply (contains_chars _ _ _ E); now left. }
  pose proof (split_nonempty _ _ HA eq_refl) as Hne.
  destruct (Str.split (Str.strip line)) as [|user rest]; [congruence|].
  unfold bind, index, ret. cbn [nth_error].
  destruct (negb (Str.mem user _)); [|now eexists].
  destruct (negb (Str.startswith user "%")); now eexists.
Qed.

Lemma sudoers_lines_return lines users tr :
  exists users', for_each lines sudoers_line users tr = (Ok users', tr).
Proof.
  revert users; induction lines as [|l lines IH]; intros users; [now eexists|].
  destruct (sudoers_line_returns users l tr) as (u1 & Hrun).
  destruct (IH u1) as (u2 & Hrun2).
  exists u2. cbn [for_each]. unfold bind. now rewrite Hrun.
Qed.

(** A sudoers file that cannot be opened is skipped: the list is unchanged. *)
Lemma sudoers_file_returns h users filepath tr :
  exists users',
    sudoers_file h users filepath tr = (Ok users', tr)
    /\ ((forall content, fs h filepath <> RegularFile (Some content)) ->
        users' = users).
Proof.
  unfold sudoers_file, try_except, bind, open_read, ret, raise.
  destruct (fs h filepath) as [|[content|]|entries]; cbv beta iota.
  - exists users. now split.
  - destruct (sudoers_lines_return (Str.readlines content) users tr)
      as (u & Hrun).
    exists u. rewrite Hrun. split; [reflexivity|].
    intros Hc. now contradiction (Hc content).
  - exists users. now split.
  - exists users. now split.
Qed.

Lemma sudoers_files_return h files users tr :
  exists users', for_each files (sudoers_file h) users tr = (Ok users', tr).
Proof.
  revert users; induction files as [|f files IH]; intros users; [now eexists|].
  destruct (sudoers_file_returns h users f tr) as (u1 & Hrun & _).
  destruct (IH u1) as (u2 & Hrun2).
  exists u2. cbn [for_each]. unfold bind. now rewrite Hrun.
Qed.

(** Apart from listing the drop-in directory, nothing in the collector
    raises: with the directory absent or listable it returns a set. *)
Lemma get_sudo_users_returns h tr :
  (fs h "/etc/sudoers.d" = Missing
   \/ exists names, fs h "/etc/sudoers.d" = Directory (Some names)) ->
  exists users, get_sudo_users h tr = (Ok users, tr).
Proof.
  intros Hd. unfold get_sudo_users.
  assert (exists files,
            (if os_path_exists h "/etc/sudoers.d"
             then names <- os_listdir h "/etc/sudoers.d" ;;
                  ret (["/etc/sudoers"] ++
                       map (os_path_join "/etc/sudoers.d")
                         (List.filter
                            (fun f => os_path_isfile h
                                        (os_path_join "/etc/sudoers.d" f))
                            names))
             else ret ["/etc/sudoers"]) tr = (Ok files, tr)) as (files & Hfiles).
  { unfold os_path_exists, os_listdir, bind.
    destruct Hd as [->|[names ->]]; now eexists. }
  unfold bind at 1. rewrite Hfiles.
  destruct (sudoers_files_return h files [] tr) as (u1 & Hrun1).
  unfold bind at 1. rewrite Hrun1.
  unfold bind at 1.
  unfold try_except, bind, open_read, ret, raise.
  destruct (fs h "/etc/group") as [|[content|]|entries]; now eexists.
Qed.

(** An unreadable file inside a listable drop-in directory is skipped and
    the other sources still feed the result. *)
Example unreadable_drop_in_file_skipped :
  match fst (get_sudo_users sudoers_file_locked_host []) with
  | Ok users => users = {[ "alice"; "bob"; "carol" ]}
  | Raise _ => False
  end.
Proof. vm_compute. reflexivity. Qed.

(** C5.  With the drop-in directory present but not listable, the
    [os.listdir] call, which sits outside every [try], raises
    PermissionError out of [get_sudo_users]: no set is returned although
    /etc/sudoers and /etc/group were readable, and [main] ends in
    [fail_json] with that message. *)
Theorem unlistable_drop_in_directory_raises :
  get_sudo_users sudoers_d_locked_host []
  = (Raise (Exn PermissionError "[Errno 13] Permission denied: /etc/sudoers.d"),
     [])
  /\ main sudoers_d_locked_host []
     = (Ok (fail_json "[Errno 13] Permission denied: /etc/sudoers.d"), []).
Proof. split; reflexivity. Qed.

Ltac silence :=
  repeat first
    [ apply silent_ret | apply silent_raise | apply silent_index
    | apply silent_open_read | apply silent_os_listdir | apply silent_if
    | apply silent_bind | apply silent_try_except | apply silent_for_each
    | match goal with |- forall _, _ => intro end ].

Lemma silent_sudoers_line users line : silent (sudoers_line users line).
Proof. unfold sudoers_line; cbv zeta; silence. Qed.

Lemma silent_sudoers_file h users filepath :
  silent (sudoers_file h users filepath).
Proof. unfold sudoers_file; silence. Qed.

Lemma silent_get_sudo_users h : silent (get_sudo_users h).
Proof.
  unfold get_sudo_users; cbv zeta; silence.
Qed.

Lemma get_dns_settings_returns h tr :
  exists d, get_dns_settings h tr = (Ok d, tr).
Proof.
  unfold get_dns_settings, os_path_exists, try_except, bind, open_read, ret,
    raise.
  destruct (fs h "/etc/resolv.conf") as [|[content|]|entries]; now eexists.
Qed.

Lemma get_ipv6_status_run h tr :
  exists i, get_ipv6_status h tr = (Ok i, tr ++ calls ipv6_script).
Proof.
  unfold get_ipv6_status.
  destruct (sysctl_pass_spec h sysctl_params (Ipv6.Info false [] ∅ None) tr)
    as (i1 & Hrun1 & _).
  destruct (grub_pass_spec h grub_files i1
              (tr ++ map (fun p => Call ("sysctl " +:+ p) []) sysctl_params))
    as (i2 & Hrun2 & _).
  destruct (live_pass_methods h i2
              (tr ++ map (fun p => Call ("sysctl " +:+ p) []) sysctl_params))
    as (i3 & Hrun3 & _).
  unfold bind at 1. rewrite Hrun1.
  unfold bind at 1. rewrite Hrun2.
  unfold bind at 1. rewrite Hrun3.
  exists i3. unfold ret. now rewrite <- app_assoc.
Qed.

(** ** main *)

(** The two ways a run of [main] can go, with the commands it has run. *)
Lemma main_run h tr :
  (exists e,
      get_sudo_users h tr = (Raise e, tr)
      /\ main h tr = (Ok (fail_json (str_of_exn e)), tr))
  \/ (exists s n d i,
        get_sudo_users h tr = (Ok s, tr)
        /\ main h tr
           = (Ok (exit_json (Result false s n d i)),
              tr ++ calls (probe_script (first_detected h))
                 ++ calls ipv6_script)).
Proof.
  pose proof (silent_get_sudo_users h tr) as Hsil.
  unfold main, main_with, try_except.
  destruct (get_sudo_users h tr) as [[s|e] t1] eqn:Es; cbn in Hsil; subst t1.
  - right.
    destruct (get_ntp_settings_run h tr) as (n & Hn & _).
    destruct (get_dns_settings_returns h
                (tr ++ calls (probe_script (first_detected h)))) as (d & Hd).
    destruct (get_ipv6_status_run h
                (tr ++ calls (probe_script (first_detected h)))) as (i & Hi).
    exists s, n, d, i. split; [reflexivity|].
    unfold bind at 1. rewrite Es.
    unfold bind at 1. rewrite Hn.
    unfold bind at 1. rewrite Hd.
    unfold bind at 1. rewrite Hi.
    unfold ret. now rewrite <- app_assoc.
  - left. exists e. split; [reflexivity|].
    unfold bind at 1. now rewrite Es.
Qed.

(** C6.  Whichever of the four collectors raises (the earlier ones having
    returned), the run ends in the single [fail_json] carrying the message
    of that exception; a run ends either so, or in [exit_json] with
    changed = false and all four fact blocks, each the value its collector
    returned. *)
Theorem main_fails_whole_or_reports_all
    (sudo : Py (gset string)) (ntp : Py Ntp.info) (dns : Py Dns.info)
    (ipv6 : Py Ipv6.info) (tr : list call) :
  (forall e tr',
      collector_raises sudo ntp dns ipv6 tr e tr' ->
      main_with sudo ntp dns ipv6 tr = (Ok (fail_json (str_of_exn e)), tr'))
  /\ ((exists e tr',
          collector_raises sudo ntp dns ipv6 tr e tr'
          /\ main_with sudo ntp dns ipv6 tr
             = (Ok (fail_json (str_of_exn e)), tr'))
      \/ (exists s t1 n t2 d t3 i t4,
            sudo tr = (Ok s, t1) /\ ntp t1 = (Ok n, t2)
            /\ dns t2 = (Ok d, t3) /\ ipv6 t3 = (Ok i, t4)
            /\ main_with sudo ntp dns ipv6 tr
               = (Ok (exit_json (Result false s n d i)), t4))).
Proof.
  assert (forall e tr',
             collector_raises sudo ntp dns ipv6 tr e tr' ->
             main_with sudo ntp dns ipv6 tr
             = (Ok (fail_json (str_of_exn e)), tr')) as Hfail.
  { intros e tr' H. unfold main_with, try_except, bind.
    destruct H as [e t1 H1|s t1 e t2 H1 H2|s t1 n t2 e t3 H1 H2 H3
                  |s t1 n t2 d t3 e t4 H1 H2 H3 H4];
      now rewrite ?H1, ?H2, ?H3, ?H4. }
  split; [exact Hfail|].
  assert (forall e tr',
             collector_raises sudo ntp dns ipv6 tr e tr' ->
             exists e tr',
               collector_raises sudo ntp dns ipv6 tr e tr'
               /\ main_with sudo ntp dns ipv6 tr
                  = (Ok (fail_json (str_of_exn e)), tr')) as Hleft
    by (intros e tr' H; exists e, tr'; split; [exact H|exact (Hfail _ _ H)]).
  destruct (sudo tr) as [[s|e] t1] eqn:E1;
    [|left; apply (Hleft e t1); now apply raises_sudo].
  destruct (ntp t1) as [[n|e] t2] eqn:E2;
    [|left; apply (Hleft e t2); eapply raises_ntp; eassumption].
  destruct (dns t2) as [[d|e] t3] eqn:E3;
    [|left; apply (Hleft e t3); eapply raises_dns; eassumption].
  destruct (ipv6 t3) as [[i|e] t4] eqn:E4;
    [|left; apply (Hleft e t4); eapply raises_ipv6; eassumption].
  right. exists s, t1, n, t2, d, t3, i, t4.
  repeat (split; [assumption|]).
  unfold main_with, try_except, bind. now rewrite E1, E2, E3, E4.
Qed.

Lemma main_fails_whole_or_reports_all_witness :
  main sudoers_d_locked_host []
  = (Ok (fail_json "[Errno 13] Permission denied: /etc/sudoers.d"), []).
Proof.
  apply (proj1 (main_fails_whole_or_reports_all
                  (get_sudo_users sudoers_d_locked_host)
                  (get_ntp_settings sudoers_d_locked_host)
                  (get_dns_settings sudoers_d_locked_host)
                  (get_ipv6_status sudoers_d_locked_host) [])
               (Exn PermissionError
                    "[Errno 13] Permission denied: /etc/sudoers.d") []).
  apply raises_sudo. reflexivity.
Defined.

(** ** The commands of a run *)

Lemma calls_app a b : calls (a ++ b) = calls a ++ calls b.
Proof. apply map_app. Qed.

(** C9, as stated, fails: on a bare host the run makes seven calls of
    [run_command], and not one of them carries a timeout. *)
Lemma calls_run_without_timeout :
  snd (main bare_host [])
  = calls ["which chronyd"; "which ntpd"; "which systemd-timesyncd";
           "sysctl net.ipv6.conf.all.disable_ipv6";
           "sysctl net.ipv6.conf.default.disable_ipv6";
           "sysctl net.ipv6.conf.lo.disable_ipv6";
           "ip -6 addr show"]
  /\ existsb has_timeout (snd (main bare_host [])) = false.
Proof. split; reflexivity. Qed.

(** C9, amended.  No call of [run_command] made by the probe is given a
    timeout.  Every run of the time-sync collector and of the IPv6
    collector begins with such a call, and each call they make, and so each
    call of [main], passes the command line and nothing else; [main] makes
    no call at all exactly when the sudo collector raises first. *)
Theorem no_call_carries_a_timeout (h : host) (tr : list call) :
  (exists cs,
      snd (get_ntp_settings h tr) = tr ++ Call "which chronyd" [] :: cs
      /\ Forall (fun c => has_timeout c = false) cs)
  /\ (exists cs,
        snd (get_ipv6_status h tr)
        = tr ++ Call "sysctl net.ipv6.conf.all.disable_ipv6" [] :: cs
        /\ Forall (fun c => has_timeout c = false) cs)
  /\ (exists cs,
        snd (main h tr) = tr ++ cs
        /\ Forall (fun c => has_timeout c = false) cs
        /\ (cs = [] <-> exists e, fst (get_sudo_users h tr) = Raise e)).
Proof.
  assert (forall cmds, Forall (fun c => has_timeout c = false) (calls cmds))
    as Hplain.
  { intros cmds. induction cmds; constructor; [reflexivity|assumption]. }
  split; [|split].
  - destruct (get_ntp_settings_run h tr) as (n & -> & _). cbn [snd].
    exists (calls (tl (probe_script (first_detected h)))).
    split; [|apply Hplain]. reflexivity.
  - destruct (get_ipv6_status_run h tr) as (i & ->). cbn [snd].
    exists (calls (tl ipv6_script)). split; [|apply Hplain]. reflexivity.
  - destruct (main_run h tr) as [(e & He & ->)|(s & n & d & i & Hs & ->)].
    + exists []. cbn [snd]. rewrite app_nil_r.
      split; [reflexivity|]. split; [constructor|].
      split; [intros _; exists e; now rewrite He|reflexivity].
    + exists (calls (probe_script (first_detected h)) ++ calls ipv6_script).
      cbn [snd]. split; [reflexivity|]. split.
      * rewrite <- calls_app. apply Hplain.
      * rewrite Hs. cbn [fst]. split.
        -- intros H. apply app_eq_nil in H as [_ H]. discriminate H.
        -- intros [e H]. discriminate H.
Qed.

(** ** hostname_check.main *)

(** C10.  When the lookup returns a name the module ends in [exit_json]
    with changed = false and that name in the hostname field; when it
    raises, the module ends in one [fail_json] whose message starts with
    [Failed to get hostname:] followed by the text of the exception. *)
Theorem hostname_main_reports (h : host) (tr : list call) :
  match hostname_lookup h with
  | Ok name =>
      hostname_check.main h tr
      = (Ok (hostname_check.exit_json
               (hostname_check.Result false name
                  ("Hostname (Python): " +:+ name))), tr)
  | Raise e =>
      exists m,
        hostname_check.main h tr = (Ok (hostname_check.fail_json m), tr)
        /\ m = "Failed to get hostname: " +:+ str_of_exn e
        /\ Str.startswith m "Failed to get hostname:" = true
  end.
Proof.
  unfold hostname_check.main, hostname_check.gethostname, try_except, bind.
  destruct (hostname_lookup h) as [name|e]; [reflexivity|].
  eexists. split; [reflexivity|]. split; reflexivity.
Qed.

Example hostname_main_examples :
  hostname_check.main bare_host []
  = (Ok (hostname_check.exit_json
           (hostname_check.Result false "localhost"
              "Hostname (Python): localhost")), [])
  /\ hostname_check.main nameless_host []
     = (Ok (hostname_check.fail_json
              "Failed to get hostname: [Errno -2] Name or service not known"),
        []).
Proof. split; reflexivity. Qed.

(** * Further properties of the collectors *)

(** ** get_ipv6_status, field by field *)

Lemma mem_app_last x l : Str.mem x (l ++ [x]) = true.
Proof.
  unfold Str.mem. rewrite existsb_app. cbn [existsb].
  now rewrite String.eqb_refl, orb_true_r.
Qed.

Lemma mem_sysctl_only {A} (l : list A) :
  Str.mem "grub" (map (fun _ => "sysctl") l) = false.
Proof. induction l as [|a l IH]; [reflexivity|exact IH]. Qed.

Lemma sysctl_step_full h i p tr :
  exists i',
    sysctl_step h i p tr = (Ok i', tr ++ [Call ("sysctl " +:+ p) []])
    /\ Ipv6.status i' = Ipv6.status i
    /\ Ipv6.disabled i' = Ipv6.disabled i || sysctl_evidence h p
    /\ Ipv6.disable_method i'
       = Ipv6.disable_method i ++ (if sysctl_evidence h p then ["sysctl"] else [])
    /\ Ipv6.sysctl_values i'
       = match sysctl_reading h p with
         | Some v => <[p := v]> (Ipv6.sysctl_values i)
         | None => Ipv6.sysctl_values i
         end.
Proof.
  unfold sysctl_step, sysctl_evidence, sysctl_reading, bind, run_command, ret.
  destruct (proc h ("sysctl " +:+ p)) as [[rc out] err].
  destruct (rc =? 0); cbn [andb].
  - destruct (Str.eqb (sysctl_value out) "1"); eexists; (split; [reflexivity|]);
      destruct i as [d m v s];
      cbn [Ipv6.status Ipv6.disabled Ipv6.disable_method Ipv6.sysctl_values
           Ipv6.append_method Ipv6.set_disabled Ipv6.set_sysctl_value];
      rewrite ?orb_true_r, ?orb_false_r, ?app_nil_r; auto.
  - eexists; split; [reflexivity|].
    now rewrite orb_false_r, app_nil_r.
Qed.

(** The reading kept for [p] after the loop has gone over [params]. *)
Lemma sysctl_pass_full h params i tr :
  exists i',
    for_each params (sysctl_step h) i tr
    = (Ok i', tr ++ map (fun p => Call ("sysctl " +:+ p) []) params)
    /\ Ipv6.status i' = Ipv6.status i
    /\ Ipv6.disabled i' = Ipv6.disabled i || existsb (sysctl_evidence h) params
    /\ Ipv6.disable_method i'
       = Ipv6.disable_method i
         ++ map (fun _ => "sysctl") (List.filter (sysctl_evidence h) params)
    /\ (forall p,
          Ipv6.sysctl_values i' !! p
          = match (if Str.mem p params then sysctl_reading h p else None) with
            | Some v => Some v
            | None => Ipv6.sysctl_values i !! p
            end).
Proof.
  revert i tr; induction params as [|q params IH]; intros i tr.
  - exists i. cbn. now rewrite orb_false_r, !app_nil_r.
  - destruct (sysctl_step_full h i q tr) as (i1 & Hrun & Hs & Hd & Hm & Hv).
    destruct (IH i1 (tr ++ [Call ("sysctl " +:+ q) []]))
      as (i2 & Hrun2 & Hs2 & Hd2 & Hm2 & Hv2).
    exists i2. cbn [for_each]. unfold bind at 1. rewrite Hrun, Hrun2.
    rewrite <- app_assoc. split; [reflexivity|].
    rewrite Hs2, Hs, Hd2, Hd, Hm2, Hm. cbn [existsb List.filter].
    split; [reflexivity|]. split; [now rewrite orb_assoc|].
    split; [rewrite <- app_assoc; now destruct (sysctl_evidence h q)|].
    intros p. rewrite Hv2, Hv. unfold Str.mem. cbn [existsb].
    fold (Str.mem p params).
    destruct (String.eqb_spec p q) as [->|Hne]; cbn [orb].
    + destruct (Str.mem q params);
        destruct (sysctl_reading h q) as [v|]; try reflexivity.
      now rewrite lookup_insert_eq.
    + destruct (Str.mem p params); [destruct (sysctl_reading h p)|];
        try reflexivity;
        destruct (sysctl_reading h q); try reflexivity;
        now rewrite lookup_insert_ne by congruence.
Qed.

Lemma grub_step_full h i g tr :
  exists i',
    grub_step h i g tr = (Ok i', tr)
    /\ Ipv6.status i' = Ipv6.status i
    /\ Ipv6.sysctl_values i' = Ipv6.sysctl_values i
    /\ Ipv6.disabled i' = Ipv6.disabled i || grub_evidence h g
    /\ Ipv6.disable_method i'
       = Ipv6.disable_method i
         ++ (if grub_evidence h g && negb (Str.mem "grub" (Ipv6.disable_method i))
             then ["grub"] else []).
Proof.
  unfold grub_step, grub_evidence, os_path_exists, try_except, bind, open_read,
    ret, raise.
  destruct (fs h g) as [|[content|]|entries]; cbv beta iota.
  - exists i. now rewrite orb_false_r, app_nil_r.
  - destruct (Str.contains "ipv6.disable=1" content).
    + destruct i as [d m v s].
      cbn [Ipv6.set_disabled Ipv6.disable_method Ipv6.disabled
           Ipv6.sysctl_values Ipv6.status].
      destruct (Str.mem "grub" m);
        eexists; (split; [reflexivity|]);
        cbn [negb andb Ipv6.append_method Ipv6.disable_method Ipv6.disabled
             Ipv6.status Ipv6.sysctl_values];
        rewrite orb_true_r, ?app_nil_r; auto.
    + exists i. now rewrite orb_false_r, app_nil_r.
  - exists i. now rewrite orb_false_r, app_nil_r.
  - exists i. now rewrite orb_false_r, app_nil_r.
Qed.

Lemma grub_pass_full h files i tr :
  exists i',
    for_each files (grub_step h) i tr = (Ok i', tr)
    /\ Ipv6.status i' = Ipv6.status i
    /\ Ipv6.sysctl_values i' = Ipv6.sysctl_values i
    /\ Ipv6.disabled i' = Ipv6.disabled i || existsb (grub_evidence h) files
    /\ Ipv6.disable_method i'
       = Ipv6.disable_method i
         ++ (if existsb (grub_evidence h) files
                && negb (Str.mem "grub" (Ipv6.disable_method i))
             then ["grub"] else []).
Proof.
  revert i; induction files as [|g files IH]; intros i.
  - exists i. cbn. now rewrite orb_false_r, app_nil_r.
  - destruct (grub_step_full h i g tr) as (i1 & Hrun & Hs & Hv & Hd & Hm).
    destruct (IH i1) as (i2 & Hrun2 & Hs2 & Hv2 & Hd2 & Hm2).
    exists i2. cbn [for_each]. unfold bind at 1. rewrite Hrun, Hrun2.
    split; [reflexivity|]. rewrite Hs2, Hs, Hv2, Hv, Hd2, Hd, Hm2.
    cbn [existsb].
    split; [reflexivity|]. split; [reflexivity|].
    split; [now rewrite orb_assoc|].
    rewrite Hm.
    destruct (grub_evidence h g); cbn [andb orb].
    + destruct (Str.mem "grub" (Ipv6.disable_method i)) eqn:Em; cbn [negb].
      * rewrite app_nil_r, Em. cbn [negb]. now rewrite andb_false_r, app_nil_r.
      * rewrite mem_app_last. cbn [negb]. now rewrite andb_false_r, app_nil_r.
    + now rewrite app_nil_r.
Qed.

Lemma live_pass_full h i tr :
  exists i',
    live_pass h i tr = (Ok i', tr ++ [Call "ip -6 addr show" []])
    /\ Ipv6.disable_method i' = Ipv6.disable_method i
    /\ Ipv6.sysctl_values i' = Ipv6.sysctl_values i
    /\ Ipv6.disabled i' = Ipv6.disabled i && negb (live_address h)
    /\ Ipv6.status i'
       = if live_address h then Some "enabled"
         else if live_query_ok h && Ipv6.disabled i then Some "disabled"
         else Ipv6.status i.
Proof.
  unfold live_pass, live_address, live_query_ok, bind, run_command, ret.
  destruct (proc h "ip -6 addr show") as [[rc out] err]. cbv beta iota.
  destruct ((rc =? 0) && Str.truthy (Str.strip out)); cbn [andb].
  - destruct (has_ipv6 (Str.split_on "010" out)); cbn [negb andb].
    + eexists; split; [reflexivity|]. destruct i. cbn. now rewrite andb_false_r.
    + destruct i as [[|] m v s]; eexists; (split; [reflexivity|]); now cbn.
  - eexists; split; [reflexivity|]. now rewrite andb_true_r.
Qed.

(** Everything the collector returns, as a function of the host. *)
Lemma get_ipv6_status_full h tr :
  exists i,
    get_ipv6_status h tr = (Ok i, tr ++ calls ipv6_script)
    /\ Ipv6.disabled i = static_evidence h && negb (live_address h)
    /\ Ipv6.status i
       = (if live_address h then Some "enabled"
          else if live_query_ok h && static_evidence h then Some "disabled"
          else None)
    /\ Ipv6.disable_method i
       = map (fun _ => "sysctl") (List.filter (sysctl_evidence h) sysctl_params)
         ++ (if existsb (grub_evidence h) grub_files then ["grub"] else [])
    /\ (forall p,
          Ipv6.sysctl_values i !! p
          = if Str.mem p sysctl_params then sysctl_reading h p else None).
Proof.
  unfold get_ipv6_status.
  destruct (sysctl_pass_full h sysctl_params (Ipv6.Info false [] ∅ None) tr)
    as (i1 & Hrun1 & Hs1 & Hd1 & Hm1 & Hv1).
  destruct (grub_pass_full h grub_files i1
              (tr ++ map (fun p => Call ("sysctl " +:+ p) []) sysctl_params))
    as (i2 & Hrun2 & Hs2 & Hv2 & Hd2 & Hm2).
  destruct (live_pass_full h i2
              (tr ++ map (fun p => Call ("sysctl " +:+ p) []) sysctl_params))
    as (i3 & Hrun3 & Hm3 & Hv3 & Hd3 & Hs3).
  unfold bind at 1. rewrite Hrun1.
  unfold bind at 1. rewrite Hrun2.
  unfold bind at 1. rewrite Hrun3.
  exists i3. unfold ret. split; [now rewrite <- app_assoc|].
  cbn [Ipv6.status Ipv6.disabled Ipv6.disable_method Ipv6.sysctl_values app orb]
    in Hs1, Hd1, Hm1, Hv1.
  assert (Ipv6.disabled i2 = static_evidence h) as Hev
    by (now rewrite Hd2, Hd1).
  split; [now rewrite Hd3, Hev|].
  split; [now rewrite Hs3, Hev, Hs2, Hs1|].
  split.
  - rewrite Hm3, Hm2, Hm1, mem_sysctl_only. cbn [negb].
    now rewrite andb_true_r.
  - intros p. rewrite Hv3, Hv2, Hv1, lookup_empty.
    now destruct (if Str.mem p sysctl_params then sysctl_reading h p else None).
Qed.

(** ** get_ntp_settings, field by field *)

Lemma chrony_conf_line_adds n line :
  chrony_conf_line n line
  = Ntp.Info (Ntp.service n) (Ntp.enabled n)
             (Ntp.servers n ++ chrony_line_servers line) (Ntp.status n).
Proof.
  unfold chrony_line_servers, chrony_conf_line. destruct n as [s e l st].
  destruct (_ || _); [|cbn; now rewrite app_nil_r].
  destruct (Str.split line) as [|? [|? ?]]; cbn; now rewrite ?app_nil_r.
Qed.

Lemma ntp_conf_line_adds n line :
  ntp_conf_line n line
  = Ntp.Info (Ntp.service n) (Ntp.enabled n)
             (Ntp.servers n ++ ntp_line_servers line) (Ntp.status n).
Proof.
  unfold ntp_line_servers, ntp_conf_line. destruct n as [s e l st].
  destruct (Str.startswith _ _); [|cbn; now rewrite app_nil_r].
  destruct (Str.split line) as [|? [|? ?]]; cbn; now rewrite ?app_nil_r.
Qed.

Lemma conf_fold_adds (body : Ntp.info -> string -> Ntp.info)
    (per_line : string -> list string) lines n :
  (forall n line,
      body n line
      = Ntp.Info (Ntp.service n) (Ntp.enabled n)
                 (Ntp.servers n ++ per_line line) (Ntp.status n)) ->
  fold_left body lines n
  = Ntp.Info (Ntp.service n) (Ntp.enabled n)
             (Ntp.servers n ++ concat (map per_line lines)) (Ntp.status n).
Proof.
  intros Hbody. revert n; induction lines as [|l lines IH]; intros n.
  - destruct n; cbn. now rewrite app_nil_r.
  - cbn [fold_left map concat]. rewrite IH, Hbody. cbn.
    now rewrite <- app_assoc.
Qed.

Lemma read_servers_exact h conf (body : Ntp.info -> string -> Ntp.info)
    (per_line : string -> list string) n tr :
  (forall n line,
      body n line
      = Ntp.Info (Ntp.service n) (Ntp.enabled n)
                 (Ntp.servers n ++ per_line line) (Ntp.status n)) ->
  read_servers h conf body n tr
  = (Ok (Ntp.Info (Ntp.service n) (Ntp.enabled n)
                  (Ntp.servers n ++ conf_servers h conf per_line)
                  (Ntp.status n)), tr).
Proof.
  intros Hbody.
  unfold read_servers, conf_servers, os_path_exists, try_except, bind,
    open_read, ret, raise.
  destruct (fs h conf) as [|[content|]|entries]; cbv beta iota;
    rewrite ?(conf_fold_adds _ _ _ _ Hbody), ?app_nil_r; now destruct n.
Qed.

Lemma timesync_line_adds n line tr :
  timesync_line n line tr
  = (Ok (Ntp.Info (Ntp.service n) (Ntp.enabled n)
                  (Ntp.servers n ++ timesync_line_servers line)
                  (Ntp.status n)), tr).
Proof.
  unfold timesync_line_servers, timesync_line.
  destruct (Str.contains "ServerName=" line) eqn:E;
    [|cbn; rewrite app_nil_r; now destruct n].
  assert (In "="%char (chars line)) as Heq.
  { apply (contains_chars _ _ _ E). cbn. tauto. }
  destruct (split_on_two _ _ Heq) as (a & b & r & ->).
  unfold bind, index, ret. cbn [nth_error].
  destruct (Str.truthy (Str.strip b)); cbn;
    rewrite ?app_nil_r; now destruct n.
Qed.

Lemma timesync_loop_adds lines n tr :
  for_each lines timesync_line n tr
  = (Ok (Ntp.Info (Ntp.service n) (Ntp.enabled n)
                  (Ntp.servers n ++ concat (map timesync_line_servers lines))
                  (Ntp.status n)), tr).
Proof.
  revert n; induction lines as [|l lines IH]; intros n.
  - cbn. rewrite app_nil_r. now destruct n.
  - cbn [for_each map concat]. unfold bind.
    rewrite timesync_line_adds, IH. cbn. now rewrite <- app_assoc.
Qed.

(** The dictionary the collector returns, as a function of the host. *)
Lemma get_ntp_settings_full h tr :
  exists n tr',
    get_ntp_settings h tr = (Ok n, tr')
    /\ n = match first_detected h with
           | Some b =>
               Ntp.Info b (Str.eqb (is_active_output h b) "active")
                        (backend_servers h b) (is_active_output h b)
           | None => Ntp.Info "unknown" false [] "unknown"
           end.
Proof.
  unfold get_ntp_settings, first_detected, backends, detected.
  cbn [List.find].
  change ("which " +:+ "chronyd") with "which chronyd".
  change ("which " +:+ "ntpd") with "which ntpd".
  change ("which " +:+ "systemd-timesyncd") with "which systemd-timesyncd".
  unfold bind at 1. unfold run_command at 1.
  destruct (proc h "which chronyd") as [[rc1 out1] err1].
  destruct (rc1 =? 0).
  - unfold bind at 1. unfold bind at 1. unfold run_command at 1.
    unfold is_active_output, backend_servers.
    change ("systemctl is-active " +:+ "chronyd")
      with "systemctl is-active chronyd".
    destruct (proc h "systemctl is-active chronyd") as [[rc out] err].
    rewrite (read_servers_exact _ _ _ _ _ _ chrony_conf_line_adds).
    cbn [Ntp.service Ntp.enabled Ntp.servers Ntp.status record_active
         Ntp.set_status Ntp.set_enabled Ntp.set_service app].
    unfold bind at 1. unfold run_command at 1.
    destruct (proc h "which ntpd") as [[rc2 out2] err2].
    unfold bind at 1. cbn [Ntp.service].
    replace ((rc2 =? 0) && Str.eqb "chronyd" "unknown") with false
      by now rewrite andb_false_r.
    unfold ret at 1.
    unfold bind at 1. unfold run_command at 1.
    destruct (proc h "which systemd-timesyncd") as [[rc3 out3] err3].
    unfold bind at 1. cbn [Ntp.service].
    replace ((rc3 =? 0) && Str.eqb "chronyd" "unknown") with false
      by now rewrite andb_false_r.
    unfold ret. eexists _, _. split; reflexivity.
  - unfold bind at 1. unfold ret at 1.
    unfold bind at 1. unfold run_command at 1.
    destruct (proc h "which ntpd") as [[rc2 out2] err2].
    cbn [Ntp.service].
    replace (Str.eqb "unknown" "unknown") with true by reflexivity.
    rewrite !andb_true_r.
    destruct (rc2 =? 0).
    + unfold bind at 1. unfold bind at 1. unfold run_command at 1.
      unfold is_active_output, backend_servers.
      change ("systemctl is-active " +:+ "ntpd")
        with "systemctl is-active ntpd".
      destruct (proc h "systemctl is-active ntpd") as [[rc out] err].
      rewrite (read_servers_exact _ _ _ _ _ _ ntp_conf_line_adds).
      cbn [Ntp.service Ntp.enabled Ntp.servers Ntp.status record_active
           Ntp.set_status Ntp.set_enabled Ntp.set_service app].
      unfold bind at 1. unfold run_command at 1.
      destruct (proc h "which systemd-timesyncd") as [[rc3 out3] err3].
      unfold bind at 1. cbn [Ntp.service].
      replace ((rc3 =? 0) && Str.eqb "ntpd" "unknown") with false
        by now rewrite andb_false_r.
      unfold ret. eexists _, _. split; reflexivity.
    + unfold bind at 1. unfold ret at 1.
      unfold bind at 1. unfold run_command at 1.
      destruct (proc h "which systemd-timesyncd") as [[rc3 out3] err3].
      cbn [Ntp.service].
      replace (Str.eqb "unknown" "unknown") with true by reflexivity.
      rewrite !andb_true_r.
      destruct (rc3 =? 0).
      * unfold bind at 1. unfold bind at 1. unfold run_command at 1.
        unfold is_active_output, backend_servers, timesync_servers.
        change ("systemctl is-active " +:+ "systemd-timesyncd")
          with "systemctl is-active systemd-timesyncd".
        destruct (proc h "systemctl is-active systemd-timesyncd")
          as [[rc out] err].
        unfold bind at 1. unfold run_command at 1.
        destruct (proc h "timedatectl show-timesync --all")
          as [[rc4 out4] err4].
        destruct (rc4 =? 0).
        -- rewrite timesync_loop_adds. unfold ret.
           eexists _, _. split; reflexivity.
        -- unfold ret. eexists _, _. split; reflexivity.
      * unfold bind, ret. eexists _, _. split; reflexivity.
Qed.



(** X3.  Whenever the [status] key is present it agrees with the flag:
    "enabled" comes with disabled = false, "disabled" with disabled = true,
    and the key takes no other value. *)
Theorem ipv6_status_agrees_with_flag (h : host) (tr : list call) :
  exists i tr',
    get_ipv6_status h tr = (Ok i, tr')
    /\ (Ipv6.status i = Some "enabled" -> Ipv6.disabled i = false)
    /\ (Ipv6.status i = Some "disabled" -> Ipv6.disabled i = true)
    /\ (Ipv6.status i = None \/ Ipv6.status i = Some "enabled"
        \/ Ipv6.status i = Some "disabled").
Proof.
  destruct (get_ipv6_status_full h tr) as (i & Hrun & Hd & Hs & _).
  exists i, (tr ++ calls ipv6_script). split; [exact Hrun|].
  rewrite Hd, Hs.
  destruct (live_address h), (live_query_ok h), (static_evidence h);
    cbn; repeat split; try discriminate; auto.
Qed.

(** X4.  [disable_method] lists "sysctl" once for each kernel parameter
    that reads 1, in query order, followed by "grub" once when at least one
    readable bootloader file carries the boot parameter: "grub" is never
    repeated and nothing else is ever listed. *)
Theorem ipv6_methods_listed (h : host) (tr : list call) :
  exists i tr',
    get_ipv6_status h tr = (Ok i, tr')
    /\ Ipv6.disable_method i
       = map (fun _ => "sysctl") (List.filter (sysctl_evidence h) sysctl_params)
         ++ (if existsb (grub_evidence h) grub_files then ["grub"] else []).
Proof.
  destruct (get_ipv6_status_full h tr) as (i & Hrun & _ & _ & Hm & _).
  now exists i, (tr ++ calls ipv6_script).
Qed.

(** X5.  [sysctl_values] has an entry for a name exactly when the name is
    one of the three queried parameters and its query exited with 0; the
    entry is the value read from that query's output. *)
Theorem ipv6_sysctl_values_lookup (h : host) (tr : list call) :
  exists i tr',
    get_ipv6_status h tr = (Ok i, tr')
    /\ (forall p, In p sysctl_params ->
          Ipv6.sysctl_values i !! p = sysctl_reading h p)
    /\ (forall p, ~ In p sysctl_params -> Ipv6.sysctl_values i !! p = None).
Proof.
  destruct (get_ipv6_status_full h tr) as (i & Hrun & _ & _ & _ & Hv).
  exists i, (tr ++ calls ipv6_script). split; [exact Hrun|].
  split; intros p Hp; rewrite Hv.
  - replace (Str.mem p sysctl_params) with true; [reflexivity|].
    symmetry. apply existsb_exists. exists p. split; [exact Hp|].
    apply String.eqb_refl.
  - destruct (Str.mem p sysctl_params) eqn:E; [|reflexivity].
    apply existsb_exists in E as (q & Hq & Heq).
    apply String.eqb_eq in Heq. now subst q.
Qed.

(** X6.  When the live query fails or prints nothing but blanks, the
    result carries no [status] key and [disabled] is what the two static
    passes found. *)
Theorem ipv6_live_query_unusable (h : host) (tr : list call) :
  live_query_ok h = false ->
  exists i tr',
    get_ipv6_status h tr = (Ok i, tr')
    /\ Ipv6.status i = None
    /\ Ipv6.disabled i = static_evidence h.
Proof.
  intros Hq. destruct (get_ipv6_status_full h tr) as (i & Hrun & Hd & Hs & _).
  exists i, (tr ++ calls ipv6_script). split; [exact Hrun|].
  assert (live_address h = false) as Ha.
  { unfold live_address, live_query_ok in *.
    destruct (proc h "ip -6 addr show") as [[rc out] err]. now rewrite Hq. }
  rewrite Hs, Hd, Ha, Hq. cbn. now rewrite andb_true_r.
Qed.

Lemma ipv6_live_query_unusable_witness :
  exists i tr',
    get_ipv6_status ipv6_static_only_host [] = (Ok i, tr')
    /\ Ipv6.status i = None
    /\ Ipv6.disabled i = true.
Proof.
  exact (ipv6_live_query_unusable ipv6_static_only_host [] eq_refl).
Defined.

(** ** More facts about the [str] methods *)

Lemma prefix_trans p w s :
  String.prefix p w = true -> String.prefix w s = true ->
  String.prefix p s = true.
Proof.
  revert w s; induction p as [|a p IH]; intros w s Hpw Hws; [now destruct s|].
  destruct w as [|b w]; [discriminate|].
  destruct s as [|c s]; [discriminate|].
  apply prefix_head in Hpw as Hab. apply prefix_head in Hws as Hbc. subst b c.
  cbn [String.prefix] in *. destruct (ascii_dec a a); [|congruence].
  exact (IH _ _ Hpw Hws).
Qed.

(** A prefix of the first token is a prefix of the stripped line. *)
Lemma strip_startswith_token s w ws p :
  Str.split s = w :: ws -> Str.startswith w p = true ->
  Str.startswith (Str.strip s) p = true.
Proof.
  intros H Hp. unfold Str.startswith in *.
  exact (prefix_trans _ _ _ Hp (strip_startswith_first _ _ _ H)).
Qed.

(** Two prefixes of one string start with the same character. *)
Lemma prefix_heads_agree a p b q s :
  String.prefix (String a p) s = true -> String.prefix (String b q) s = true ->
  a = b.
Proof.
  destruct s as [|c s]; [discriminate|].
  intros H1%prefix_head H2%prefix_head. congruence.
Qed.

Lemma split_on_absent sep s :
  ~ In sep (chars s) -> Str.split_on sep s = [s].
Proof.
  induction s as [|a s IH]; intros H; [reflexivity|].
  cbn [Str.split_on]. destruct (Ascii.eqb_spec a sep) as [->|Hne].
  - exfalso. apply H. now left.
  - rewrite IH; [reflexivity|]. intros Hin. apply H. now right.
Qed.

Lemma split_on_app_sep sep a w :
  ~ In sep (chars a) ->
  Str.split_on sep (a +:+ String sep w) = a :: Str.split_on sep w.
Proof.
  induction a as [|x a IH]; intros Ha.
  - change ("" +:+ String sep w) with (String sep w).
    cbn [Str.split_on]. now rewrite Ascii.eqb_refl.
  - change (String x a +:+ String sep w) with (String x (a +:+ String sep w)).
    cbn [Str.split_on]. destruct (Ascii.eqb_spec x sep) as [->|Hne].
    + exfalso. apply Ha. now left.
    + rewrite IH; [reflexivity|]. intros H. apply Ha. now right.
Qed.

Lemma last_item_cons x l :
  l <> [] -> Str.last_item (x :: l) = Str.last_item l.
Proof. destruct l; [congruence|reflexivity]. Qed.

(** [split(sep)[-1]] is the text after the last separator. *)
Lemma last_item_split_on sep a w :
  ~ In sep (chars w) ->
  Str.last_item (Str.split_on sep (a +:+ String sep w)) = w.
Proof.
  intros Hw. induction a as [|x a IH].
  - change ("" +:+ String sep w) with (String sep w).
    cbn [Str.split_on]. rewrite Ascii.eqb_refl, (split_on_absent _ _ Hw).
    reflexivity.
  - change (String x a +:+ String sep w) with (String x (a +:+ String sep w)).
    cbn [Str.split_on].
    assert (In sep (chars (a +:+ String sep w))) as Hin.
    { clear. induction a as [|y a IH]; [now left|right; exact IH]. }
    destruct (split_on_two _ _ Hin) as (u & v & r & E).
    rewrite E in IH |- *.
    destruct (Ascii.eqb x sep).
    + now rewrite last_item_cons.
    + rewrite last_item_cons in IH |- * by discriminate. exact IH.
Qed.

Lemma lstrip_app_nonblank k c v :
  Str.isspace c = false ->
  Str.lstrip (k +:+ String c v) = Str.lstrip k +:+ String c v.
Proof.
  intros Hc. induction k as [|a k IH].
  - change ("" +:+ String c v) with (String c v). cbn [Str.lstrip].
    now rewrite Hc.
  - change (String a k +:+ String c v) with (String a (k +:+ String c v)).
    cbn [Str.lstrip]. destruct (Str.isspace a); [exact IH|reflexivity].
Qed.

Lemma rstrip_app_nonblank_char k c v :
  Str.isspace c = false ->
  Str.rstrip (k +:+ String c v) = k +:+ String c (Str.rstrip v).
Proof.
  intros Hc. induction k as [|a k IH].
  - change ("" +:+ String c v) with (String c v).
    change ("" +:+ String c (Str.rstrip v)) with (String c (Str.rstrip v)).
    cbn [Str.rstrip]. destruct (Str.rstrip v); [now rewrite Hc|reflexivity].
  - change (String a k +:+ String c v) with (String a (k +:+ String c v)).
    change (String a k +:+ String c (Str.rstrip v))
      with (String a (k +:+ String c (Str.rstrip v))).
    cbn [Str.rstrip]. rewrite IH.
    destruct k; reflexivity.
Qed.

Lemma rstrip_chars s c : In c (chars (Str.rstrip s)) -> In c (chars s).
Proof.
  induction s as [|a s IH]; [trivial|].
  cbn [Str.rstrip]. destruct (Str.rstrip s) as [|d r].
  - destruct (Str.isspace a); [intros []|].
    intros [<-|[]]. now left.
  - intros [<-|H]; [now left|right; auto].
Qed.

Lemma rstrip_idempotent s : Str.rstrip (Str.rstrip s) = Str.rstrip s.
Proof.
  induction s as [|a s IH]; [reflexivity|].
  cbn [Str.rstrip]. destruct (Str.rstrip s) as [|d r] eqn:E.
  - destruct (Str.isspace a) eqn:Ea; [reflexivity|].
    cbn [Str.rstrip]. now rewrite Ea.
  - change (Str.rstrip (String a (String d r)))
      with (match Str.rstrip (String d r) with
            | "" => if Str.isspace a then "" else String a ""
            | String x y => String a (String x y)
            end).
    now rewrite IH.
Qed.

Lemma lstrip_rstrip s : Str.lstrip (Str.rstrip s) = Str.rstrip (Str.lstrip s).
Proof.
  induction s as [|a s IH]; [reflexivity|].
  cbn [Str.rstrip Str.lstrip]. destruct (Str.isspace a) eqn:Ea.
  - rewrite <- IH. destruct (Str.rstrip s) as [|d r]; [reflexivity|].
    cbn [Str.lstrip]. now rewrite Ea.
  - cbn [Str.rstrip].
    destruct (Str.rstrip s) as [|d r]; rewrite ?Ea; cbn [Str.lstrip];
      now rewrite Ea.
Qed.

Lemma strip_rstrip s : Str.strip (Str.rstrip s) = Str.strip s.
Proof.
  unfold Str.strip. now rewrite lstrip_rstrip, rstrip_idempotent.
Qed.

Lemma lstrip_idempotent s : Str.lstrip (Str.lstrip s) = Str.lstrip s.
Proof.
  induction s as [|a s IH]; [reflexivity|].
  cbn [Str.lstrip]. destruct (Str.isspace a) eqn:Ea; [exact IH|].
  cbn [Str.lstrip]. now rewrite Ea.
Qed.

Lemma strip_idempotent s : Str.strip (Str.strip s) = Str.strip s.
Proof.
  unfold Str.strip.
  now rewrite lstrip_rstrip, lstrip_idempotent, rstrip_idempotent.
Qed.

Lemma lstrip_sub s c : In c (chars (Str.lstrip s)) -> In c (chars s).
Proof.
  induction s as [|a s IH]; [trivial|].
  cbn [Str.lstrip]. destruct (Str.isspace a); [|trivial].
  intros H. right. auto.
Qed.

Lemma strip_sub s c : In c (chars (Str.strip s)) -> In c (chars s).
Proof. intros H. apply lstrip_sub, rstrip_chars. exact H. Qed.

(** X8.  The value kept for a kernel parameter is the trimmed text after
    the last equals sign of the output, and the whole trimmed output when
    it holds no equals sign. *)
Theorem sysctl_value_after_last_equals (k v : string) :
  ~ In "="%char (chars v) ->
  sysctl_value (k +:+ "=" +:+ v) = Str.strip v
  /\ sysctl_value v = Str.strip v.
Proof.
  intros Hv. unfold sysctl_value. split.
  - change ("=" +:+ v) with (String "=" v).
    unfold Str.strip at 2.
    rewrite lstrip_app_nonblank, rstrip_app_nonblank_char by reflexivity.
    rewrite last_item_split_on; [apply strip_rstrip|].
    intros H. apply Hv. now apply rstrip_chars.
  - rewrite split_on_absent; [apply strip_idempotent|].
    intros H. apply Hv. now apply strip_sub.
Qed.

Lemma sysctl_value_after_last_equals_witness :
  sysctl_value ("kernel.x = a" +:+ "=" +:+ " 1 " +:+ nl) = "1"
  /\ sysctl_value (" 1 " +:+ nl) = "1".
Proof.
  apply (sysctl_value_after_last_equals "kernel.x = a" (" 1 " +:+ nl)).
  cbn. intros [H|[H|[H|[H|[]]]]]; discriminate H.
Defined.

(** ** get_ntp_settings: the fields of the result *)

(** X9.  In every result [enabled] is true exactly when [status] is the
    text "active": with no backend the two keep their initial values, and
    with a backend both come from the same trimmed query output. *)
Theorem ntp_enabled_iff_status_active (h : host) (tr : list call) :
  exists n tr',
    get_ntp_settings h tr = (Ok n, tr')
    /\ Ntp.enabled n = Str.eqb (Ntp.status n) "active".
Proof.
  destruct (get_ntp_settings_full h tr) as (n & tr' & Hrun & ->).
  eexists _, _. split; [exact Hrun|].
  now destruct (first_detected h).
Qed.

(** X10.  When a backend wins, [status] is the trimmed output of the
    status query for that backend and [servers] holds what that backend's
    own source yields, in order: nothing from the configuration or status
    of another backend is mixed in. *)
Theorem ntp_fields_from_winner (h : host) (tr : list call) (b : string) :
  first_detected h = Some b ->
  exists n tr',
    get_ntp_settings h tr = (Ok n, tr')
    /\ Ntp.service n = b
    /\ Ntp.status n = is_active_output h b
    /\ Ntp.servers n = backend_servers h b.
Proof.
  intros Hb. destruct (get_ntp_settings_full h tr) as (n & tr' & Hrun & ->).
  rewrite Hb in *. eexists _, _. split; [exact Hrun|]. now repeat split.
Qed.

Lemma ntp_fields_from_winner_witness :
  exists n tr',
    get_ntp_settings ntp_both_host [] = (Ok n, tr')
    /\ Ntp.service n = "chronyd"
    /\ Ntp.status n = "active"
    /\ Ntp.servers n = ["2.pool.ntp.org"].
Proof.
  exact (ntp_fields_from_winner ntp_both_host [] "chronyd" eq_refl).
Defined.

(** X11.  When the winning backend's server source cannot be used (its
    configuration file is missing or unreadable, or the timedatectl query
    fails), the collector still returns, with the service and its status
    filled in and an empty [servers] list. *)
Theorem ntp_servers_empty_without_source
    (h : host) (tr : list call) (b : string) :
  first_detected h = Some b ->
  source_unavailable h b = true ->
  exists n tr',
    get_ntp_settings h tr = (Ok n, tr')
    /\ Ntp.service n = b
    /\ Ntp.status n = is_active_output h b
    /\ Ntp.servers n = [].
Proof.
  intros Hb Hsrc. destruct (get_ntp_settings_full h tr) as (n & tr' & Hrun & ->).
  rewrite Hb in *. eexists _, _. split; [exact Hrun|].
  split; [reflexivity|]. split; [reflexivity|].
  cbn [Ntp.servers]. unfold backend_servers, source_unavailable in *.
  unfold conf_servers, timesync_servers.
  destruct (String.eqb b "chronyd").
  - now destruct (fs h "/etc/chrony.conf") as [|[?|]|?].
  - destruct (String.eqb b "ntpd").
    + now destruct (fs h "/etc/ntp.conf") as [|[?|]|?].
    + destruct (proc h "timedatectl show-timesync --all") as [[rc out] err].
      now destruct (rc =? 0).
Qed.

Lemma ntp_servers_empty_without_source_witness :
  exists n tr',
    get_ntp_settings chrony_unconfigured_host [] = (Ok n, tr')
    /\ Ntp.service n = "chronyd"
    /\ Ntp.status n = "inactive"
    /\ Ntp.servers n = [].
Proof.
  exact (ntp_servers_empty_without_source chrony_unconfigured_host []
           "chronyd" eq_refl eq_refl).
Defined.

(** X12.  A configuration line whose first token is [server] gives its
    second token to both the chrony and the ntp parser; a line whose first
    token is [pool] gives it to the chrony parser only, the ntp parser
    reads nothing from it. *)
Theorem ntp_server_and_pool_lines (line kw addr : string) (rest : list string) :
  Str.split line = kw :: addr :: rest ->
  (kw = "server" ->
   chrony_line_servers line = [addr] /\ ntp_line_servers line = [addr])
  /\ (kw = "pool" ->
      chrony_line_servers line = [addr] /\ ntp_line_servers line = []).
Proof.
  intros H.
  pose proof (strip_startswith_first _ _ _ H) as Hs.
  unfold chrony_line_servers, ntp_line_servers, chrony_conf_line,
    ntp_conf_line.
  split; intros ->; rewrite ?Hs, H; cbn [orb].
  - now split.
  - rewrite orb_true_r. split; [reflexivity|].
    destruct (Str.startswith (Str.strip line) "server") eqn:E; [|reflexivity].
    unfold Str.startswith in *.
    pose proof (prefix_heads_agree _ _ _ _ _ E Hs). discriminate.
Qed.

Lemma ntp_server_and_pool_lines_witness :
  chrony_line_servers ("pool 2.pool.ntp.org iburst" +:+ nl) = ["2.pool.ntp.org"]
  /\ ntp_line_servers ("pool 2.pool.ntp.org iburst" +:+ nl) = [].
Proof.
  apply (ntp_server_and_pool_lines ("pool 2.pool.ntp.org iburst" +:+ nl)
           "pool" "2.pool.ntp.org" ["iburst"] eq_refl).
  reflexivity.
Defined.

Lemma timesync_line_servers_of_server_name (v : string) :
  ~ In "="%char (chars v) ->
  timesync_line_servers ("ServerName=" +:+ v)
  = if Str.truthy (Str.strip v) then [Str.strip v] else [].
Proof.
  intros Hv. unfold timesync_line_servers, timesync_line.
  assert (Str.contains "ServerName=" ("ServerName=" +:+ v) = true) as ->.
  { change ("ServerName=" +:+ v) with (String "S" ("erverName=" +:+ v)).
    cbn [Str.contains].
    change (String "S" ("erverName=" +:+ v)) with ("ServerName=" +:+ v).
    now rewrite prefix_app. }
  assert (Str.split_on "=" ("ServerName=" +:+ v) = ["ServerName"; v]) as ->.
  { change ("ServerName=" +:+ v) with ("ServerName" +:+ String "=" v).
    rewrite split_on_app_sep, (split_on_absent _ _ Hv); [reflexivity|].
    cbn. intuition discriminate. }
  unfold bind, index, ret. cbn [nth_error].
  now destruct (Str.truthy (Str.strip v)).
Qed.

(** X13.  The loop body over the timedatectl output returns on every line:
    the index into the pieces around the equals signs is never out of
    range, because it is only taken on a line that contains [ServerName=].
    It leaves the service, the enabled flag and the status alone; a line
    without [ServerName=] changes nothing, and a line [ServerName=<v>] with
    no further equals sign appends the trimmed [<v>], or nothing when
    [<v>] is blank. *)
Theorem timesync_line_reads_server_name
    (n : Ntp.info) (line : string) (tr : list call) :
  exists n',
    timesync_line n line tr = (Ok n', tr)
    /\ Ntp.service n' = Ntp.service n
    /\ Ntp.enabled n' = Ntp.enabled n
    /\ Ntp.status n' = Ntp.status n
    /\ (Str.contains "ServerName=" line = false -> n' = n)
    /\ (forall v,
          line = "ServerName=" +:+ v -> ~ In "="%char (chars v) ->
          Ntp.servers n'
          = Ntp.servers n
            ++ (if Str.truthy (Str.strip v) then [Str.strip v] else [])).
Proof.
  eexists. split; [apply timesync_line_adds|].
  cbn [Ntp.service Ntp.enabled Ntp.status Ntp.servers].
  repeat (split; [reflexivity|]). split.
  - intros H. unfold timesync_line_servers, timesync_line. rewrite H.
    cbn. rewrite app_nil_r. now destruct n.
  - intros v -> Hv. now rewrite (timesync_line_servers_of_server_name v Hv).
Qed.

Example timesync_line_examples :
  fst (timesync_line (Ntp.Info "systemd-timesyncd" true [] "active")
         ("ServerName=" +:+ " time.example.org ") [])
  = Ok (Ntp.Info "systemd-timesyncd" true ["time.example.org"] "active")
  /\ fst (timesync_line (Ntp.Info "systemd-timesyncd" true [] "active")
            "ServerName=" [])
     = Ok (Ntp.Info "systemd-timesyncd" true [] "active").
Proof. split; reflexivity. Qed.

(** ** get_dns_settings: edge cases *)

(** X14.  When /etc/resolv.conf is missing, is not a regular file, or
    cannot be read, the collector returns without error: both lists are
    empty and the path is still reported. *)
Theorem dns_unreadable_gives_defaults (h : host) (tr : list call) :
  (forall content, fs h "/etc/resolv.conf" <> RegularFile (Some content)) ->
  get_dns_settings h tr = (Ok (Dns.Info [] [] "/etc/resolv.conf"), tr).
Proof.
  intros Hno.
  unfold get_dns_settings, os_path_exists, try_except, bind, open_read, ret,
    raise.
  destruct (fs h "/etc/resolv.conf") as [|[content|]|entries]; try reflexivity.
  now contradiction (Hno content).
Qed.

Lemma dns_unreadable_gives_defaults_witness :
  get_dns_settings bare_host [] = (Ok (Dns.Info [] [] "/etc/resolv.conf"), []).
Proof.
  apply (dns_unreadable_gives_defaults bare_host []). discriminate.
Defined.

Lemma dns_comment_line line :
  Str.startswith (Str.strip line) "#" = true \/ Str.strip line = "" ->
  line_nameservers line = [] /\ line_search_domains line = [].
Proof.
  unfold line_nameservers, line_search_domains, resolv_conf_line.
  intros [H| ->]; [|now split].
  destruct (Str.startswith (Str.strip line) "nameserver") eqn:En.
  { unfold Str.startswith in *.
    pose proof (prefix_heads_agree _ _ _ _ _ En H). discriminate. }
  destruct (Str.startswith (Str.strip line) "search") eqn:Es.
  { unfold Str.startswith in *.
    pose proof (prefix_heads_agree _ _ _ _ _ Es H). discriminate. }
  now split.
Qed.

(** X15.  A resolver file made only of comment lines (the first non-blank
    character is #) and blank lines yields empty [nameservers] and
    [search_domains]: a commented-out nameserver is not reported. *)
Theorem dns_comments_give_nothing (h : host) (content : string) (tr : list call) :
  fs h "/etc/resolv.conf" = RegularFile (Some content) ->
  (forall line, In line (Str.readlines content) ->
     Str.startswith (Str.strip line) "#" = true \/ Str.strip line = "") ->
  get_dns_settings h tr = (Ok (Dns.Info [] [] "/etc/resolv.conf"), tr).
Proof.
  intros Hfs Hlines.
  unfold get_dns_settings, os_path_exists, try_except, bind, open_read, ret.
  rewrite Hfs. cbv beta iota. rewrite resolv_conf_fold.
  cbn [Dns.nameservers Dns.search_domains Dns.resolv_conf app].
  induction (Str.readlines content) as [|l ls IH]; [reflexivity|].
  cbn [map concat].
  destruct (dns_comment_line l (Hlines l (or_introl eq_refl))) as [-> ->].
  cbn [app]. apply IH. intros line Hin. apply Hlines. now right.
Qed.

Lemma dns_comments_give_nothing_witness :
  get_dns_settings dns_comments_host []
  = (Ok (Dns.Info [] [] "/etc/resolv.conf"), []).
Proof.
  eapply (dns_comments_give_nothing dns_comments_host _ []); [reflexivity|].
  intros line Hin. vm_compute in Hin.
  destruct Hin as [<-|[<-|[<-|[]]]]; vm_compute; auto.
Defined.

(** X16.  The keywords are matched as prefixes of the stripped line: a
    line whose first token merely begins with [nameserver] still gives its
    second token to [nameservers], and since that test comes first it gives
    nothing to [search_domains]. *)
Theorem dns_keyword_is_a_prefix (line w addr : string) (rest : list string) :
  Str.split line = w :: addr :: rest ->
  Str.startswith w "nameserver" = true ->
  line_nameservers line = [addr] /\ line_search_domains line = [].
Proof.
  intros H Hw. unfold line_nameservers, line_search_domains, resolv_conf_line.
  rewrite (strip_startswith_token _ _ _ _ H Hw), split_strip, H. now split.
Qed.

Lemma dns_keyword_is_a_prefix_witness :
  line_nameservers "nameservers 10.0.0.1 10.0.0.2" = ["10.0.0.1"]
  /\ line_search_domains "nameservers 10.0.0.1 10.0.0.2" = [].
Proof.
  apply (dns_keyword_is_a_prefix "nameservers 10.0.0.1 10.0.0.2"
           "nameservers" "10.0.0.1" ["10.0.0.2"]); reflexivity.
Defined.

(** X17.  A line that holds a single token, such as a keyword with nothing
    after it, adds nothing to either list: the second token is only read
    when there is one. *)
Theorem dns_keyword_alone_adds_nothing (line w : string) :
  Str.split line = [w] ->
  line_nameservers line = [] /\ line_search_domains line = [].
Proof.
  intros H. unfold line_nameservers, line_search_domains, resolv_conf_line.
  rewrite split_strip, H.
  destruct (Str.startswith (Str.strip line) "nameserver"); [now split|].
  destruct (Str.startswith (Str.strip line) "search"); now split.
Qed.

Lemma dns_keyword_alone_adds_nothing_witness :
  line_nameservers ("nameserver" +:+ nl) = []
  /\ line_search_domains ("nameserver" +:+ nl) = [].
Proof.
  apply (dns_keyword_alone_adds_nothing ("nameserver" +:+ nl) "nameserver").
  reflexivity.
Defined.

(** ** get_sudo_users: what each source contributes *)

Lemma sudoers_line_adds users line tr :
  sudoers_line users line tr = (Ok (users ++ sudoers_line_users line), tr).
Proof.
  unfold sudoers_line_users, sudoers_line.
  destruct (_ || negb _); [cbn; now rewrite app_nil_r|].
  destruct (Str.contains "ALL=(ALL" (Str.strip line)
            || Str.contains "ALL = (ALL" (Str.strip line)) eqn:E;
    [|cbn; now rewrite app_nil_r].
  assert (In "A"%char (chars (Str.strip line))) as HA.
  { apply orb_true_iff in E as [E|E];
      apply (contains_chars _ _ _ E); now left. }
  pose proof (split_nonempty _ _ HA eq_refl) as Hne.
  destruct (Str.split (Str.strip line)) as [|user rest]; [congruence|].
  unfold bind, index, ret. cbn [nth_error].
  destruct (negb (Str.mem user _)); [|cbn; now rewrite app_nil_r].
  destruct (negb (Str.startswith user "%")); cbn; now rewrite ?app_nil_r.
Qed.

Lemma sudoers_lines_add lines users tr :
  for_each lines sudoers_line users tr
  = (Ok (users ++ concat (map sudoers_line_users lines)), tr).
Proof.
  revert users; induction lines as [|l lines IH]; intros users.
  - cbn. now rewrite app_nil_r.
  - cbn [for_each map concat]. unfold bind.
    rewrite sudoers_line_adds, IH. now rewrite <- app_assoc.
Qed.

Lemma sudoers_file_adds h users filepath tr :
  sudoers_file h users filepath tr
  = (Ok (users ++ sudoers_file_users h filepath), tr).
Proof.
  unfold sudoers_file, sudoers_file_users, try_except, bind, open_read, ret,
    raise.
  destruct (fs h filepath) as [|[content|]|entries]; cbv beta iota;
    rewrite ?sudoers_lines_add, ?app_nil_r; reflexivity.
Qed.

Lemma sudoers_files_add h files users tr :
  for_each files (sudoers_file h) users tr
  = (Ok (users ++ concat (map (sudoers_file_users h) files)), tr).
Proof.
  revert users; induction files as [|f files IH]; intros users.
  - cbn. now rewrite app_nil_r.
  - cbn [for_each map concat]. unfold bind.
    rewrite sudoers_file_adds, IH. now rewrite <- app_assoc.
Qed.

Lemma group_line_adds users line :
  group_line users line = users ++ group_line [] line.
Proof.
  unfold group_line.
  destruct (_ || _); [|now rewrite app_nil_r].
  destruct (Str.split_on ":" (Str.strip line)) as [|? [|? [|? [|m ?]]]];
    rewrite ?app_nil_r; try reflexivity.
  destruct (Str.truthy m); now rewrite ?app_nil_r.
Qed.

Lemma group_fold_adds lines users :
  fold_left group_line lines users = users ++ fold_left group_line lines [].
Proof.
  revert users; induction lines as [|l lines IH]; intros users.
  - cbn. now rewrite app_nil_r.
  - cbn [fold_left]. rewrite IH, (IH (group_line [] l)), group_line_adds.
    now rewrite <- app_assoc.
Qed.

Lemma get_sudo_users_exact h tr :
  drop_in_listable h ->
  get_sudo_users h tr
  = (Ok (list_to_set
           (concat (map (sudoers_file_users h) (sudoers_sources h))
            ++ group_users h)), tr).
Proof.
  intros Hd. unfold get_sudo_users, sudoers_sources.
  assert ((if os_path_exists h "/etc/sudoers.d"
           then names <- os_listdir h "/etc/sudoers.d" ;;
                ret (["/etc/sudoers"] ++
                     map (os_path_join "/etc/sudoers.d")
                       (List.filter
                          (fun f => os_path_isfile h
                                      (os_path_join "/etc/sudoers.d" f))
                          names))
           else ret ["/etc/sudoers"]) tr
          = (Ok ("/etc/sudoers"
                 :: match fs h "/etc/sudoers.d" with
                    | Directory (Some names) =>
                        map (os_path_join "/etc/sudoers.d")
                          (List.filter
                             (fun f => os_path_isfile h
                                         (os_path_join "/etc/sudoers.d" f))
                             names)
                    | _ => []
                    end), tr)) as Hfiles.
  { unfold os_path_exists, os_listdir, bind.
    destruct Hd as [->|[names ->]]; reflexivity. }
  unfold bind at 1. rewrite Hfiles.
  unfold bind at 1. rewrite sudoers_files_add.
  unfold bind at 1.
  unfold group_users, try_except, bind, open_read, ret, raise.
  destruct (fs h "/etc/group") as [|[content|]|entries]; cbv beta iota;
    rewrite ?app_nil_r; try reflexivity.
  now rewrite group_fold_adds.
Qed.

Lemma get_sudo_users_listing_raises h tr :
  fs h "/etc/sudoers.d" = Directory None
  \/ (exists content, fs h "/etc/sudoers.d" = RegularFile content) ->
  exists e, get_sudo_users h tr = (Raise e, tr).
Proof.
  intros Hd. unfold get_sudo_users, os_path_exists, os_listdir.
  destruct Hd as [->|[content ->]]; eexists; reflexivity.
Qed.

(** A run of the collector that returns has listed the drop-in directory,
    or found none. *)
Lemma get_sudo_users_returned h tr users tr' :
  get_sudo_users h tr = (Ok users, tr') -> drop_in_listable h.
Proof.
  intros H. unfold drop_in_listable.
  destruct (fs h "/etc/sudoers.d") as [|content|[names|]] eqn:E; eauto.
  - destruct (get_sudo_users_listing_raises h tr) as (e & He); [eauto|].
    congruence.
  - destruct (get_sudo_users_listing_raises h tr) as (e & He); [eauto|].
    congruence.
Qed.

(** X18.  Whenever the collector returns, it has run no command and its
    result is exactly the set of the names yielded by the primary sudoers
    file, by each regular file of the drop-in directory and by the group
    database; a source that cannot be opened yields no name and does not
    disturb the others. *)
Theorem sudo_users_union_of_sources
    (h : host) (tr tr' : list call) (users : gset string) :
  get_sudo_users h tr = (Ok users, tr') ->
  tr' = tr
  /\ (forall u : string,
        u ∈ users <->
        (exists f, In f (sudoers_sources h) /\ In u (sudoers_file_users h f))
        \/ In u (group_users h))
  /\ (forall f,
        (forall content, fs h f <> RegularFile (Some content)) ->
        sudoers_file_users h f = []).
Proof.
  intros Hrun. pose proof (get_sudo_users_returned _ _ _ _ Hrun) as Hd.
  rewrite (get_sudo_users_exact h tr Hd) in Hrun.
  assert (users
          = list_to_set
              (concat (map (sudoers_file_users h) (sudoers_sources h))
               ++ group_users h)
          /\ tr' = tr) as [-> ->] by (split; congruence).
  split; [reflexivity|]. split.
  - intros u. rewrite elem_of_list_to_set, list_elem_of_In, in_app_iff.
    rewrite in_concat.
    split; (intros [H|H]; [left|now right]).
    + destruct H as (l & Hl & Hu). apply in_map_iff in Hl as (f & <- & Hf).
      eauto.
    + destruct H as (f & Hf & Hu). exists (sudoers_file_users h f).
      split; [now apply in_map|exact Hu].
  - intros f Hf. unfold sudoers_file_users.
    destruct (fs h f) as [|[content|]|entries]; try reflexivity.
    now contradiction (Hf content).
Qed.

Lemma sudo_users_union_of_sources_witness :
  exists users,
    get_sudo_users sudoers_file_locked_host [] = (Ok users, [])
    /\ (forall u : string,
          u ∈ users <->
          (exists f, In f (sudoers_sources sudoers_file_locked_host)
                     /\ In u (sudoers_file_users sudoers_file_locked_host f))
          \/ In u (group_users sudoers_file_locked_host))
    /\ sudoers_file_users sudoers_file_locked_host "/etc/sudoers.d/ops" = [].
Proof.
  assert (drop_in_listable sudoers_file_locked_host) as Hd
    by (right; exists ["ops"]; reflexivity).
  eexists. split; [apply (get_sudo_users_exact _ [] Hd)|].
  destruct (sudo_users_union_of_sources sudoers_file_locked_host [] [] _
              (get_sudo_users_exact _ [] Hd)) as (_ & Hu & Hf).
  split; [exact Hu|]. apply Hf. discriminate.
Defined.

Lemma sudoers_line_users_cases (line : string) :
  sudoers_line_users line = []
  \/ exists user rest,
       sudoers_line_users line = [user]
       /\ Str.split line = user :: rest
       /\ user <> "root"
       /\ Str.startswith user "%" = false.
Proof.
  unfold sudoers_line_users, sudoers_line.
  destruct (_ || negb _); [now left|].
  destruct (_ || _); [|now left].
  rewrite split_strip.
  destruct (Str.split line) as [|user rest] eqn:E; [now left|].
  unfold bind, index, ret. cbn [nth_error].
  destruct (Str.mem user ["root"; "%sudo"; "%wheel"; "%admin"]) eqn:Em;
    [now left|].
  cbn [negb]. destruct (Str.startswith user "%") eqn:Ep; [now left|].
  right. exists user, rest. repeat split; trivial.
  intros ->. discriminate Em.
Qed.

(** X19.  The loop body over a sudoers file returns on every line: the
    index of the first token is never out of range, because it is only
    taken on a line that holds a grant pattern.  It appends at most one
    name, the first token of the line, which is never root and never begins
    with a percent sign. *)
Theorem sudoers_line_yields_one_user
    (users : list string) (line : string) (tr : list call) :
  exists users',
    sudoers_line users line tr = (Ok users', tr)
    /\ (users' = users
        \/ exists user rest,
             users' = users ++ [user]
             /\ Str.split line = user :: rest
             /\ user <> "root"
             /\ Str.startswith user "%" = false).
Proof.
  eexists. split; [apply sudoers_line_adds|].
  destruct (sudoers_line_users_cases line)
    as [->|(user & rest & -> & Hsplit & Hroot & Hpct)].
  - left. apply app_nil_r.
  - right. exists user, rest. auto.
Qed.

Example sudoers_line_examples :
  fst (sudoers_line ["alice"] ("root    ALL=(ALL:ALL) ALL" +:+ nl) [])
  = Ok ["alice"]
  /\ fst (sudoers_line ["alice"] ("%wheel  ALL=(ALL) ALL" +:+ nl) [])
     = Ok ["alice"]
  /\ fst (sudoers_line ["alice"] ("bob ALL = (ALL) ALL" +:+ nl) [])
     = Ok ["alice"; "bob"]
  /\ fst (sudoers_line ["alice"] ("Defaults env_reset" +:+ nl) [])
     = Ok ["alice"].
Proof. repeat split. Qed.

(** X20.  A line that is not a comment, carries one of the two grant
    patterns, and starts with a token that is neither root nor prefixed by
    a percent sign, yields exactly that token. *)
Theorem sudoers_grant_line_reported (line user : string) (rest : list string) :
  Str.split line = user :: rest ->
  Str.startswith (Str.strip line) "#" = false ->
  Str.contains "ALL=(ALL" (Str.strip line) = true
  \/ Str.contains "ALL = (ALL" (Str.strip line) = true ->
  user <> "root" ->
  Str.startswith user "%" = false ->
  sudoers_line_users line = [user].
Proof.
  intros Hsplit Hc Hpat Hroot Hpct.
  unfold sudoers_line_users, sudoers_line. rewrite Hc, split_strip, Hsplit.
  assert (Str.truthy (Str.strip line) = true) as ->.
  { destruct (Str.strip line); [|reflexivity].
    destruct Hpat as [H|H]; discriminate H. }
  assert (Str.contains "ALL=(ALL" (Str.strip line)
          || Str.contains "ALL = (ALL" (Str.strip line) = true) as ->
    by (destruct Hpat as [-> | ->]; now rewrite ?orb_true_r).
  cbn [negb orb]. unfold bind, index, ret. cbn [nth_error].
  assert (Str.mem user ["root"; "%sudo"; "%wheel"; "%admin"] = false) as ->.
  { unfold Str.mem. cbn [existsb].
    destruct (String.eqb_spec user "root"); [contradiction|].
    destruct (String.eqb_spec user "%sudo"); [subst; discriminate|].
    destruct (String.eqb_spec user "%wheel"); [subst; discriminate|].
    destruct (String.eqb_spec user "%admin"); [subst; discriminate|].
    reflexivity. }
  now rewrite Hpct.
Qed.

Lemma sudoers_grant_line_reported_witness :
  sudoers_line_users ("  alice ALL=(ALL) NOPASSWD: ALL" +:+ nl) = ["alice"].
Proof.
  apply (sudoers_grant_line_reported
           ("  alice ALL=(ALL) NOPASSWD: ALL" +:+ nl) "alice"
           ["ALL=(ALL)"; "NOPASSWD:"; "ALL"]);
    first [reflexivity | discriminate | now left].
Defined.

Lemma group_fold_keeps lines line m :
  In line lines -> In m (group_line [] line) ->
  In m (fold_left group_line lines []).
Proof.
  induction lines as [|l lines IH]; intros Hin Hm; [destruct Hin|].
  cbn [fold_left]. rewrite group_fold_adds. apply in_app_iff.
  destruct Hin as [->|Hin]; [now left|right; auto].
Qed.

(** X21.  Every member named in the fourth field of a [sudo:] or [wheel:]
    line of a readable group database is in the result, exactly as written
    there: the names are not filtered, so a group member called root or one
    starting with a percent sign is reported too. *)
Theorem sudo_group_members_reported
    (h : host) (tr : list call) (content line a b c members m : string)
    (rest : list string) :
  drop_in_listable h ->
  fs h "/etc/group" = RegularFile (Some content) ->
  In line (Str.readlines content) ->
  Str.startswith line "sudo:" = true \/ Str.startswith line "wheel:" = true ->
  Str.split_on ":" (Str.strip line) = a :: b :: c :: members :: rest ->
  members <> "" ->
  In m (Str.split_on "," members) ->
  exists users, get_sudo_users h tr = (Ok users, tr) /\ m ∈ users.
Proof.
  intros Hd Hfs Hline Hkw Hsplit Hne Hm.
  eexists. split; [apply (get_sudo_users_exact h tr Hd)|].
  rewrite elem_of_list_to_set, list_elem_of_In, in_app_iff. right.
  unfold group_users. rewrite Hfs.
  apply (group_fold_keeps _ line); [exact Hline|].
  unfold group_line. rewrite Hsplit.
  assert (Str.startswith line "sudo:" || Str.startswith line "wheel:" = true)
    as -> by (destruct Hkw as [-> | ->]; now rewrite ?orb_true_r).
  destruct members; [congruence|exact Hm].
Qed.

Lemma sudo_group_members_reported_witness :
  exists users,
    get_sudo_users sudoers_file_locked_host [] = (Ok users, [])
    /\ "carol" ∈ users.
Proof.
  eapply (sudo_group_members_reported sudoers_file_locked_host []
            _ ("sudo:x:27:bob,carol" +:+ nl) "sudo" "x" "27" "bob,carol"
            "carol" []).
  - right. exists ["ops"]. reflexivity.
  - reflexivity.
  - vm_compute. left. reflexivity.
  - left. reflexivity.
  - reflexivity.
  - discriminate.
  - vm_compute. right. left. reflexivity.
Defined.

(** X22.  The sudo collector, the DNS collector and the hostname module
    only read files and the host name: none of them ever calls
    [run_command], whatever they find. *)
Theorem collectors_without_commands (h : host) (tr : list call) :
  snd (get_sudo_users h tr) = tr
  /\ snd (get_dns_settings h tr) = tr
  /\ snd (hostname_check.main h tr) = tr.
Proof.
  split; [apply silent_get_sudo_users|]. split.
  - destruct (get_dns_settings_returns h tr) as (d & ->). reflexivity.
  - unfold hostname_check.main, hostname_check.gethostname, try_except, bind.
    now destruct (hostname_lookup h).
Qed.

(** ** main: when it reports and when it fails *)

Lemma get_dns_settings_value h tr :
  get_dns_settings h tr = (fst (get_dns_settings h []), tr).
Proof.
  unfold get_dns_settings, os_path_exists, try_except, bind, open_read, ret,
    raise.
  now destruct (fs h "/etc/resolv.conf") as [|[content|]|entries].
Qed.

Lemma get_ntp_settings_value h tr :
  fst (get_ntp_settings h tr) = fst (get_ntp_settings h []).
Proof.
  destruct (get_ntp_settings_full h tr) as (n & t & -> & ->).
  destruct (get_ntp_settings_full h []) as (n' & t' & -> & ->).
  reflexivity.
Qed.

Lemma get_ipv6_status_value h tr :
  fst (get_ipv6_status h tr) = fst (get_ipv6_status h []).
Proof.
  destruct (get_ipv6_status_full h tr) as (i & -> & Hd & Hs & Hm & Hv).
  destruct (get_ipv6_status_full h []) as (i' & -> & Hd' & Hs' & Hm' & Hv').
  cbn [fst]. f_equal.
  destruct i as [d m v s], i' as [d' m' v' s']; cbn in *.
  f_equal; try congruence.
  apply map_eq. intros p. now rewrite Hv, Hv'.
Qed.

Lemma main_run_listable (h : host) (tr : list call) :
  drop_in_listable h ->
  exists r,
    main h tr
    = (Ok (exit_json r),
       tr ++ calls (probe_script (first_detected h) ++ ipv6_script))
    /\ changed r = false
    /\ fst (get_sudo_users h []) = Ok (sudo_users r)
    /\ fst (get_ntp_settings h []) = Ok (ntp_settings r)
    /\ fst (get_dns_settings h []) = Ok (dns_settings r)
    /\ fst (get_ipv6_status h []) = Ok (ipv6_status r).
Proof.
  intros Hd.
  destruct (main_run h tr) as [(e & He & _)|(s & n & d & i & Hs & Hmain)].
  { rewrite (get_sudo_users_exact h tr Hd) in He. discriminate. }
  exists (Result false s n d i). rewrite calls_app. split; [exact Hmain|].
  split; [reflexivity|]. cbn [sudo_users ntp_settings dns_settings ipv6_status].
  unfold main, main_with, try_except in Hmain.
  unfold bind at 1 in Hmain. rewrite Hs in Hmain.
  unfold bind at 1 in Hmain.
  destruct (get_ntp_settings_run h tr) as (n0 & Hn & _).
  pose proof (get_ntp_settings_value h tr) as Hnv. rewrite Hn in *.
  unfold bind at 1 in Hmain. rewrite get_dns_settings_value in Hmain.
  pose proof (get_dns_settings_returns h []) as (d0 & Hd0). rewrite Hd0 in *.
  cbn [fst] in Hmain.
  unfold bind at 1 in Hmain.
  destruct (get_ipv6_status_run h
              (tr ++ calls (probe_script (first_detected h)))) as (i0 & Hi).
  pose proof (get_ipv6_status_value h
                (tr ++ calls (probe_script (first_detected h)))) as Hiv.
  rewrite Hi in *. unfold ret in Hmain.
  injection Hmain as En Ed Ei _. subst n d i. cbn [fst] in Hnv, Hiv.
  rewrite (get_sudo_users_exact h [] Hd).
  rewrite (get_sudo_users_exact h tr Hd) in Hs. injection Hs as <-.
  now rewrite <- Hnv, <- Hiv.
Qed.

(** X23.  Whenever [main] ends in [exit_json], changed is false, each of
    the four blocks is exactly what its collector returns when run on its
    own, and the commands run are those of the time-sync collector followed
    by those of the IPv6 collector. *)
Theorem main_exit_reports_collectors
    (h : host) (tr tr' : list call) (r : result) :
  main h tr = (Ok (exit_json r), tr') ->
  changed r = false
  /\ fst (get_sudo_users h []) = Ok (sudo_users r)
  /\ fst (get_ntp_settings h []) = Ok (ntp_settings r)
  /\ fst (get_dns_settings h []) = Ok (dns_settings r)
  /\ fst (get_ipv6_status h []) = Ok (ipv6_status r)
  /\ tr' = tr ++ calls (probe_script (first_detected h) ++ ipv6_script).
Proof.
  intros Hexit.
  assert (drop_in_listable h) as Hd.
  { destruct (main_run h tr) as [(e & _ & Hf)|(s & n & d & i & Hs & _)].
    - rewrite Hf in Hexit. discriminate.
    - exact (get_sudo_users_returned _ _ _ _ Hs). }
  destruct (main_run_listable h tr Hd) as (r0 & Hmain & H).
  rewrite Hmain in Hexit. injection Hexit as <- <-.
  destruct H as (Hc & Hs & Hn & Hdns & Hi). now repeat split.
Qed.

Lemma main_exit_reports_collectors_witness :
  exists r,
    main bare_host []
    = (Ok (exit_json r),
       calls ["which chronyd"; "which ntpd"; "which systemd-timesyncd";
              "sysctl net.ipv6.conf.all.disable_ipv6";
              "sysctl net.ipv6.conf.default.disable_ipv6";
              "sysctl net.ipv6.conf.lo.disable_ipv6";
              "ip -6 addr show"])
    /\ changed r = false
    /\ fst (get_sudo_users bare_host []) = Ok (sudo_users r)
    /\ fst (get_ntp_settings bare_host []) = Ok (ntp_settings r)
    /\ fst (get_dns_settings bare_host []) = Ok (dns_settings r)
    /\ fst (get_ipv6_status bare_host []) = Ok (ipv6_status r).
Proof.
  destruct (main_run_listable bare_host [] (or_introl eq_refl))
    as (r & Hmain & _).
  exists r. split; [exact Hmain|].
  destruct (main_exit_reports_collectors bare_host [] _ r Hmain)
    as (Hc & Hs & Hn & Hd & Hi & _).
  now repeat split.
Defined.

(** X24.  When /etc/sudoers.d exists but is not a directory that can be
    listed (a regular file, or a directory without read permission), the
    sudo collector raises before reading any file, and [main] ends in
    [fail_json] with the text of that exception without having run a
    single command. *)
Theorem main_fails_when_listing_fails (h : host) (tr : list call) :
  fs h "/etc/sudoers.d" = Directory None
  \/ (exists content, fs h "/etc/sudoers.d" = RegularFile content) ->
  exists e,
    get_sudo_users h tr = (Raise e, tr)
    /\ is_IOError e = true
    /\ main h tr = (Ok (fail_json (str_of_exn e)), tr).
Proof.
  intros Hd.
  assert (exists e, get_sudo_users h tr = (Raise e, tr) /\ is_IOError e = true)
    as (e & He & Hio).
  { unfold get_sudo_users, os_path_exists, os_listdir.
    destruct Hd as [->|[content ->]]; eexists; split; reflexivity. }
  exists e. split; [exact He|]. split; [exact Hio|].
  unfold main, main_with, try_except, bind. now rewrite He.
Qed.

Lemma main_fails_when_listing_fails_witness :
  exists e,
    get_sudo_users sudoers_d_is_file_host [] = (Raise e, [])
    /\ is_IOError e = true
    /\ main sudoers_d_is_file_host []
       = (Ok (fail_json (str_of_exn e)), []).
Proof.
  apply (main_fails_when_listing_fails sudoers_d_is_file_host []).
  right. exists (Some ""). reflexivity.
Defined.
